(** * SoulMail backend: error handling middleware and letter delivery policy

    A shallow embedding of [src/middleware/errorHandler.js] and of the
    [deliveredAt] validator of [src/models/letter.js], with the properties
    of the specification stated and proved (or refuted) over it.

    JavaScript values are modelled by the inductive type [JS.value]; the
    ECMAScript built-ins the two files call ([Object.keys], [Object.values],
    property assignment, [String.prototype.includes] / [split],
    [Array.prototype.pop], [Date.UTC], [getUTCFullYear], ...) are modelled
    after ECMA-262. *)

From Stdlib Require Import ZArith List String Ascii Bool Lia DecimalString.
Import ListNotations.
Local Open Scope string_scope.
Local Open Scope Z_scope.

(* ================================================================== *)
(** * ECMAScript time values (ECMA-262, "Date objects") *)
(* ================================================================== *)

Module ESDate.

(** A time value is an integral number of milliseconds since the epoch.
    A JavaScript number that may be [NaN] is an [option Z]. *)
Definition number := option Z.

Definition msPerDay : Z := 86400000.

Definition maxTime : Z := 8640000000000000.

(** The time values a valid [Date] object can hold. *)
Definition valid_time (t : Z) : Prop := - maxTime <= t <= maxTime.

Definition Day (t : Z) : Z := t / msPerDay.

Definition DaysInYear (y : Z) : Z :=
  if negb (y mod 4 =? 0) then 365
  else if negb (y mod 100 =? 0) then 366
  else if negb (y mod 400 =? 0) then 365
  else 366.

Definition DayFromYear (y : Z) : Z :=
  365 * (y - 1970) + (y - 1969) / 4 - (y - 1901) / 100 + (y - 1601) / 400.

Definition TimeFromYear (y : Z) : Z := msPerDay * DayFromYear y.

(** "The largest integer y such that TimeFromYear(y) <= t": a first
    estimate from the mean length of the Gregorian year, corrected by at
    most one year ([YearFromTime_spec] below proves the characterisation). *)
Definition YearFromTime (t : Z) : Z :=
  let d := Day t in
  let y := 1970 + (d * 400) / 146097 in
  if d <? DayFromYear y then y - 1
  else if DayFromYear (y + 1) <=? d then y + 1
  else y.

Definition InLeapYear (t : Z) : Z :=
  if DaysInYear (YearFromTime t) =? 366 then 1 else 0.

Definition DayWithinYear (t : Z) : Z := Day t - DayFromYear (YearFromTime t).

Definition MonthFromTime (t : Z) : Z :=
  let d := DayWithinYear t in
  let l := InLeapYear t in
  if d <? 31 then 0
  else if d <? 59 + l then 1
  else if d <? 90 + l then 2
  else if d <? 120 + l then 3
  else if d <? 151 + l then 4
  else if d <? 181 + l then 5
  else if d <? 212 + l then 6
  else if d <? 243 + l then 7
  else if d <? 273 + l then 8
  else if d <? 304 + l then 9
  else if d <? 334 + l then 10
  else 11.

Definition DateFromTime (t : Z) : Z :=
  let d := DayWithinYear t in
  let l := InLeapYear t in
  match MonthFromTime t with
  | 0 => d + 1
  | 1 => d - 30
  | 2 => d - 58 - l
  | 3 => d - 89 - l
  | 4 => d - 119 - l
  | 5 => d - 150 - l
  | 6 => d - 180 - l
  | 7 => d - 211 - l
  | 8 => d - 242 - l
  | 9 => d - 272 - l
  | 10 => d - 303 - l
  | _ => d - 333 - l
  end.

(** Number of days from the start of a year to the start of month [mn]
    (0-based), [l] being 1 in a leap year. *)
Definition monthStart (mn l : Z) : Z :=
  match mn with
  | 0 => 0
  | 1 => 31
  | 2 => 59 + l
  | 3 => 90 + l
  | 4 => 120 + l
  | 5 => 151 + l
  | 6 => 181 + l
  | 7 => 212 + l
  | 8 => 243 + l
  | 9 => 273 + l
  | 10 => 304 + l
  | _ => 334 + l
  end.

(** MakeDay(year, month, date): the day number of the first of month
    [mn] of year [ym] is [DayFromYear ym + monthStart mn _]. *)
Definition MakeDay (year month date : Z) : Z :=
  let ym := year + month / 12 in
  let mn := month mod 12 in
  let l := if DaysInYear ym =? 366 then 1 else 0 in
  DayFromYear ym + monthStart mn l + date - 1.

Definition MakeDate (day time : Z) : Z := day * msPerDay + time.

Definition TimeClip (time : Z) : number :=
  if maxTime <? Z.abs time then None else Some time.

(** MakeFullYear: a year from 0 to 99 means 1900 + year. *)
Definition MakeFullYear (y : Z) : Z :=
  if (0 <=? y) && (y <=? 99) then 1900 + y else y.

(** [Date.UTC(year, month, date)], the remaining arguments absent. *)
Definition Date_UTC (year month date : Z) : number :=
  let yr := MakeFullYear year in
  TimeClip (MakeDate (MakeDay yr month date) 0).

Definition getUTCFullYear (t : Z) : Z := YearFromTime t.
Definition getUTCMonth (t : Z) : Z := MonthFromTime t.
Definition getUTCDate (t : Z) : Z := DateFromTime t.

(** [new Date(value)]: the time value of the new [Date] object, [NaN]
    (an Invalid Date) when [value] is out of range. *)
Definition new_Date (value : Z) : number := TimeClip value.

(** The getters on a [Date] object: [NaN] on an Invalid Date. *)
Definition getUTCFullYear_of (date : number) : number :=
  option_map getUTCFullYear date.
Definition getUTCMonth_of (date : number) : number :=
  option_map getUTCMonth date.
Definition getUTCDate_of (date : number) : number :=
  option_map getUTCDate date.

(** [Date.UTC(year, month, date)] on numbers: [NaN] when one of them is. *)
Definition Date_UTC_of (year month date : number) : number :=
  match year, month, date with
  | Some y, Some m, Some d => Date_UTC y m d
  | _, _, _ => None
  end.

(** [a + b] and [a >= b] on numbers: [NaN] propagates through the sum
    and makes every comparison false. *)
Definition num_add (a b : number) : number :=
  match a, b with
  | Some x, Some y => Some (x + y)
  | _, _ => None
  end.

Definition num_ge (a b : number) : bool :=
  match a, b with
  | Some x, Some y => y <=? x
  | _, _ => false
  end.

(** Truncation of a time value to the UTC midnight that starts its day. *)
Definition utc_midnight (t : Z) : Z := msPerDay * Day t.

(** The dates whose UTC year [Date.UTC] takes for a two-digit year. *)
Definition two_digit_year (t : Z) : Prop := 0 <= YearFromTime t <= 99.

(** 1 January 2000, 00:00 UTC. *)
Definition year2000 : Z := 946684800000.

End ESDate.

(* ================================================================== *)
(** * src/models/letter.js: the [deliveredAt] validator *)
(* ================================================================== *)

Module Letter.
Import ESDate.

(** What the validator reads of the document it is bound to ([this]). *)
Record Document := {
  isNew : bool;
  isModified : string -> bool
}.

(** [validate.validator].  [now] is what the clock reads when [new Date()]
    is evaluated, and [value] the number the candidate date stands for
    ([new Date(value)] copies the time value of a date). *)
Definition validator (this : Document) (now : Z) (value : Z) : bool :=
  let isNewLetter := isNew this in
  let isRescheduling := isModified this "deliveredAt" in
  if isNewLetter || isRescheduling then
    let today := new_Date now in
    let todayAtMidnightUTC :=
      Date_UTC_of (getUTCFullYear_of today) (getUTCMonth_of today)
                  (getUTCDate_of today) in
    let sevenDaysInMilliseconds := 7 * 24 * 60 * 60 * 1000 in
    let minimumDeliveryDateMs :=
      num_add todayAtMidnightUTC (Some sevenDaysInMilliseconds) in
    let chosenDate := new_Date value in
    let chosenDateAtMidnightUTC :=
      Date_UTC_of (getUTCFullYear_of chosenDate) (getUTCMonth_of chosenDate)
                  (getUTCDate_of chosenDate) in
    let isDateFarEnoughInFuture :=
      num_ge chosenDateAtMidnightUTC minimumDeliveryDateMs in
    isDateFarEnoughInFuture
  else true.

(** The comparison made by the validator once its gate is open, for two
    valid dates. *)
Definition far_enough (now value : Z) : bool :=
  num_ge
    (Date_UTC (getUTCFullYear value) (getUTCMonth value) (getUTCDate value))
    (num_add (Date_UTC (getUTCFullYear now) (getUTCMonth now) (getUTCDate now))
             (Some (7 * 24 * 60 * 60 * 1000))).

(** [validate.message]. *)
Definition message : string :=
  "Delivery date must be at least one week in the future.".

(** How the schema's [validate] entry is applied to a path: a validator
    that returns false fails the path with the entry's message. *)
Definition validate (this : Document) (now value : Z) : option string :=
  if validator this now value then None else Some message.

(** A letter being created, and a stored letter of which only
    [isDelivered] is being changed. *)
Definition new_letter : Document :=
  {| isNew := true; isModified := fun _ => false |}.

Definition stored_letter : Document :=
  {| isNew := false;
     isModified := fun path => (path =? "isDelivered")%string |}.

End Letter.

(* ================================================================== *)
(** * JavaScript values and the built-ins the middleware uses *)
(* ================================================================== *)

Module JS.

(** Values.  An object is the list of its properties in creation order,
    as property reads ([[Get]]) see them: a property inherited from a
    prototype (the [name] of an [Error] instance) is listed like an own
    one.  Numbers are integers: the middleware only compares a number
    with [11000] and tests it for truthiness.  Functions, arrays and
    symbols are not among the values. *)
#[warnings="-register-all"]
Inductive value :=
| VUndefined
| VNull
| VBool (b : bool)
| VNum (n : Z)
| VStr (s : string)
| VObj (props : list (string * value)).

(** What a [throw] carries: a [TypeError] raised by the language itself,
    or a value thrown by user code. *)
Inductive thrown :=
| TypeError
| Thrown (v : value).

(** Completion of an evaluation: a value, or an exception. *)
Inductive completion (A : Type) :=
| Normal (a : A)
| Throw (e : thrown).
Arguments Normal {A} a.
Arguments Throw {A} e.

Definition bind {A B} (c : completion A) (k : A -> completion B)
  : completion B :=
  match c with
  | Normal a => k a
  | Throw e => Throw e
  end.

Definition ToBoolean (v : value) : bool :=
  match v with
  | VUndefined | VNull => false
  | VBool b => b
  | VNum n => negb (n =? 0)
  | VStr s => negb (s =? "")%string
  | VObj _ => true
  end.

(** [a === b] where one operand is a primitive literal, the only use the
    middleware makes of it (two objects are compared by identity, which
    is not modelled: the comparison is [false]). *)
Definition strict_equals (a b : value) : bool :=
  match a, b with
  | VUndefined, VUndefined => true
  | VNull, VNull => true
  | VBool x, VBool y => Bool.eqb x y
  | VNum x, VNum y => x =? y
  | VStr x, VStr y => (x =? y)%string
  | _, _ => false
  end.

(** [a || b]. *)
Definition or_else (a b : value) : value := if ToBoolean a then a else b.

(** ** Property keys *)

Definition is_digit (c : ascii) : bool :=
  let n := nat_of_ascii c in (48 <=? n)%nat && (n <=? 57)%nat.

Fixpoint digits_value (acc : Z) (s : string) : option Z :=
  match s with
  | EmptyString => Some acc
  | String c r =>
      if is_digit c
      then digits_value (10 * acc + (Z.of_nat (nat_of_ascii c) - 48)) r
      else None
  end.

(** An array index is a canonical numeric string (no sign, no leading
    zero) whose value is below [2^32 - 1]. *)
Definition array_index (s : string) : option Z :=
  match s with
  | EmptyString => None
  | String c r =>
      if (c =? "0")%char && negb (r =? "")%string then None
      else match digits_value 0 s with
           | Some n => if n <? 4294967295 then Some n else None
           | None => None
           end
  end.

Definition is_array_index (s : string) : bool :=
  match array_index s with Some _ => true | None => false end.

Definition index_of (s : string) : Z :=
  match array_index s with Some n => n | None => 0 end.

Fixpoint insert_index (k : string) (l : list string) : list string :=
  match l with
  | [] => [k]
  | h :: t => if index_of k <=? index_of h then k :: l
              else h :: insert_index k t
  end.

Definition sort_indices (l : list string) : list string :=
  fold_right insert_index [] l.

(** OrdinaryOwnPropertyKeys: the array indices in ascending numeric order,
    then the other string keys in creation order. *)
Definition OrdinaryOwnPropertyKeys {V : Type} (props : list (string * V))
  : list string :=
  let ks := map fst props in
  sort_indices (filter is_array_index ks)
    ++ filter (fun k => negb (is_array_index k)) ks.

Fixpoint lookup {V : Type} (k : string) (props : list (string * V))
  : option V :=
  match props with
  | [] => None
  | (k', v) :: t => if (k =? k')%string then Some v else lookup k t
  end.

Definition string_of_Z (n : Z) : string :=
  NilZero.string_of_uint (N.to_uint (Z.to_N n)).

(** The code unit at an index of a string, as a one-character string. *)
Definition char_at (s : string) (n : Z) : value :=
  match String.get (Z.to_nat n) s with
  | Some c => VStr (String c EmptyString)
  | None => VUndefined
  end.

(** [v[k]] for a value that is neither [undefined] nor [null].  On a
    primitive only the properties of a string (its indices and [length])
    exist; the names the middleware reads ([message], [name], [code],
    ...) are on no primitive's prototype. *)
Definition prop (v : value) (k : string) : value :=
  match v with
  | VObj props =>
      match lookup k props with Some x => x | None => VUndefined end
  | VStr s =>
      if (k =? "length")%string then VNum (Z.of_nat (String.length s))
      else match array_index k with
           | Some n => char_at s n
           | None => VUndefined
           end
  | _ => VUndefined
  end.

Definition nullish (v : value) : bool :=
  match v with
  | VUndefined | VNull => true
  | _ => false
  end.

(** Property read: reading a property of [undefined] or [null] throws. *)
Definition get (v : value) (k : string) : completion value :=
  if nullish v then Throw TypeError else Normal (prop v k).

(** [o[k] = v] on an object whose assignments to [__proto__] reach the
    accessor of [Object.prototype], for a value [v] that is no object and
    not [null]: an existing property keeps its place and takes the new
    value, a new one is added last; an assignment to [__proto__] is
    ignored by the accessor and creates no own property. *)
Fixpoint replace_prop (k : string) (v : value) (props : list (string * value))
  : list (string * value) :=
  match props with
  | [] => []
  | (k', v') :: t =>
      if (k =? k')%string then (k', v) :: t
      else (k', v') :: replace_prop k v t
  end.

Definition has_own {V : Type} (k : string) (props : list (string * V))
  : bool :=
  match lookup k props with Some _ => true | None => false end.

Definition set_prop (props : list (string * value)) (k : string) (v : value)
  : list (string * value) :=
  if (k =? "__proto__")%string then props
  else if has_own k props then replace_prop k v props
  else props ++ [(k, v)].

(** An object under construction: its own properties, and whether an
    assignment to [__proto__] still reaches the accessor that
    [Object.prototype] has under that name. *)
Definition object : Type := (list (string * value) * bool)%type.

(** [{}]. *)
Definition empty_object : object := ([], true).

Definition own_properties (o : object) : list (string * value) := fst o.

(** An assignment that finds no accessor: the property is set on the
    object itself. *)
Definition define_prop (props : list (string * value)) (k : string) (v : value)
  : list (string * value) :=
  if has_own k props then replace_prop k v props else props ++ [(k, v)].

(** [o[k] = v] in general.  While the accessor is reached, assigning an
    object or [null] to [__proto__] changes the prototype and adds no
    property: after [null], and after an object that has a property named
    [__proto__] of its own, the accessor is not reached any more, and a
    later assignment to [__proto__] sets an own property.  (The objects
    of [value] are ordinary objects, which inherit from
    [Object.prototype].) *)
Definition assign (o : object) (k : string) (v : value) : object :=
  let (props, reached) := o in
  if (k =? "__proto__")%string then
    if reached then
      (props, match v with
              | VNull => false
              | VObj p => negb (has_own "__proto__" p)
              | _ => true
              end)
    else (define_prop props k v, false)
  else (set_prop props k v, reached).

(** [Object.keys(v)]. *)
Definition Object_keys (v : value) : completion (list string) :=
  match v with
  | VUndefined | VNull => Throw TypeError
  | VObj props => Normal (OrdinaryOwnPropertyKeys props)
  | VStr s =>
      Normal (map (fun i => string_of_Z (Z.of_nat i)) (seq 0 (String.length s)))
  | VBool _ | VNum _ => Normal []
  end.

(** [Object.values(o)] of an ordinary object. *)
Definition Object_values (props : list (string * value)) : list value :=
  map (fun k => match lookup k props with Some x => x | None => VUndefined end)
      (OrdinaryOwnPropertyKeys props).

(** [l[0]]: [None] stands for [undefined]. *)
Definition first {A} (l : list A) : option A := hd_error l.

(** ToString / ToPropertyKey of [Object.keys(...)[0]], as a template
    literal and a computed key take it. *)
Definition key_text (k : option string) : string :=
  match k with Some s => s | None => "undefined" end.

(** ** Strings *)

(** [s.includes(c)] for a one-character search string. *)
Fixpoint includes (s : string) (c : ascii) : bool :=
  match s with
  | EmptyString => false
  | String a r => (a =? c)%char || includes r c
  end.

(** [s.split(c)] for a one-character separator. *)
Fixpoint split (s : string) (c : ascii) : list string :=
  match s with
  | EmptyString => [EmptyString]
  | String a r =>
      if (a =? c)%char then EmptyString :: split r c
      else match split r c with
           | h :: t => String a h :: t
           | [] => [String a EmptyString]
           end
  end.

(** [l.pop()] used as a property key: the last element, [undefined] on
    an empty array. *)
Definition pop (l : list string) : string := last l "undefined".

End JS.

(* ================================================================== *)
(** * src/middleware/errorHandler.js *)
(* ================================================================== *)

Module ErrorHandler.
Import JS.

Notation "'let*' x ':=' c 'in' k" := (bind c (fun x => k))
  (at level 10, x name, c at level 100, k at level 200).

(** ** Custom error classes

    An instance is the object a handler passes to [next]: the properties
    set by the constructors, and the [name] it inherits from
    [Error.prototype] (no class of the file sets one).  An omitted
    argument is [None] (or [VUndefined]), and takes the parameter's
    default. *)
Section Classes.

(** The stack trace recorded at the place of construction. *)
Variable stack : string.

(** [super(message)] of the built-in [Error]: an absent message leaves
    the inherited empty one. *)
Definition Error_props (message : option string) : list (string * value) :=
  [ ("name", VStr "Error");
    ("message", VStr (match message with Some m => m | None => "" end));
    ("stack", VStr stack) ].

Definition AppError_props (message : option string) (statusCode : option Z)
  : list (string * value) :=
  Error_props message
    ++ [ ("statusCode",
          VNum (match statusCode with Some c => c | None => 400 end));
         ("isOperational", VBool true) ].

Definition AppError (message : option string) (statusCode : option Z)
  : value :=
  VObj (AppError_props message statusCode).

Definition ValidationError (message : option string) (fieldErrors : value)
  : value :=
  VObj (AppError_props message (Some 400)
          ++ [ ("code", VStr "VALIDATION_ERROR");
               ("fields", match fieldErrors with
                          | VUndefined => VNull
                          | v => v
                          end) ]).

Definition with_default (message : option string) (default : string)
  : option string :=
  match message with Some m => Some m | None => Some default end.

Definition NotFoundError (message : option string) : value :=
  VObj (AppError_props (with_default message "Resource not found") (Some 404)
          ++ [ ("code", VStr "NOT_FOUND") ]).

Definition ForbiddenError (message : option string) : value :=
  VObj (AppError_props
          (with_default message
             "You do not have permission to perform this action")
          (Some 403)
          ++ [ ("code", VStr "FORBIDDEN") ]).

Definition UnauthorizedError (message : option string) : value :=
  VObj (AppError_props (with_default message "Authentication required")
          (Some 401)
          ++ [ ("code", VStr "UNAUTHORIZED") ]).

(** [originalError] is read only when it is truthy, so that the two
    property reads cannot throw. *)
Definition AIServiceError (message : option string) (originalError : value)
  : value :=
  let originalError :=
    match originalError with VUndefined => VNull | v => v end in
  VObj (AppError_props
          (with_default message "AI service encountered an error")
          (Some 503)
          ++ [ ("code", VStr "AI_SERVICE_ERROR");
               ("originalError", originalError) ]
          ++ (if ToBoolean originalError
              then [ ("providerStatus", prop originalError "status");
                     ("providerMessage", prop originalError "message") ]
              else [])).

End Classes.

(** ** Helper functions *)

(** [list.forEach(body)] where [body] updates a captured variable and
    may throw. *)
Fixpoint forEach {S : Type} (l : list string)
         (body : S -> string -> completion S) (s : S) : completion S :=
  match l with
  | [] => Normal s
  | k :: t => let* s' := body s k in forEach t body s'
  end.

(** [fullPath.includes('.') ? fullPath.split('.').pop() : fullPath]:
    a path that is not a string has no [includes] to call. *)
Definition fieldName_of (fullPath : value) : completion string :=
  match fullPath with
  | VStr s => Normal (if includes s "." then pop (split s ".") else s)
  | _ => Throw TypeError
  end.

Definition extractMongooseErrors (mongooseError : value)
  : completion (list (string * value)) :=
  let fieldErrors := empty_object in
  let* errors := get mongooseError "errors" in
  let* fieldErrors :=
    if ToBoolean errors then
      let* keys := Object_keys errors in
      forEach keys
        (fun fieldErrors errorKey =>
           let* entry := get errors errorKey in
           let* fullPath := get entry "path" in
           let* fieldName := fieldName_of fullPath in
           let* entry' := get errors errorKey in
           let* message := get entry' "message" in
           Normal (assign fieldErrors fieldName message))
        fieldErrors
    else Normal fieldErrors in
  Normal (own_properties fieldErrors).

Definition getFirstErrorMessage (fieldErrors : list (string * value))
  : value :=
  let errorMessages := Object_values fieldErrors in
  match errorMessages with
  | m :: _ => m
  | [] => VStr "Validation failed"
  end.

(** ** The error handling middleware *)

(** [response.status(s).json(b)]. *)
Record response := {
  status : value;
  json : value
}.

(** [process.env.NODE_ENV === 'development']. *)
Definition isDevelopment (NODE_ENV : option string) : bool :=
  match NODE_ENV with
  | Some s => (s =? "development")%string
  | None => false
  end.

(** The console output is not modelled, only the property read it makes:
    [error.message] of [undefined] or [null] throws. *)
Definition errorHandler (NODE_ENV : option string) (error : value)
  : completion response :=
  let* _logged := get error "message" in
  let isDevelopment := isDevelopment NODE_ENV in
  let* name := get error "name" in
  let* errors := get error "errors" in
  if strict_equals name (VStr "ValidationError") && ToBoolean errors then
    let* fieldErrors := extractMongooseErrors error in
    let summaryMessage := getFirstErrorMessage fieldErrors in
    Normal {| status := VNum 400;
              json := VObj [ ("success", VBool false);
                             ("error", VObj [ ("code", VStr "VALIDATION_ERROR");
                                              ("message", summaryMessage);
                                              ("fields", VObj fieldErrors) ]) ] |}
  else if strict_equals name (VStr "CastError") then
    Normal {| status := VNum 400;
              json := VObj [ ("success", VBool false);
                             ("error", VObj [ ("code", VStr "INVALID_ID");
                                              ("message", VStr "Invalid ID format") ]) ] |}
  else
    let* code := get error "code" in
    if strict_equals code (VNum 11000) then
      let* keyValue := get error "keyValue" in
      let* keys := Object_keys keyValue in
      let duplicateField := key_text (first keys) in
      Normal {| status := VNum 400;
                json := VObj [ ("success", VBool false);
                               ("error",
                                VObj [ ("code", VStr "DUPLICATE_ERROR");
                                       ("message",
                                        VStr ("A record with this "
                                                ++ duplicateField
                                                ++ " already exists"));
                                       ("fields",
                                        VObj [ (duplicateField,
                                                VStr ("This " ++ duplicateField
                                                        ++ " is already in use")) ]) ]) ] |}
    else
      let* isOperational := get error "isOperational" in
      if ToBoolean isOperational then
        let* message := get error "message" in
        let* fields := get error "fields" in
        let* statusCode := get error "statusCode" in
        let error_ := [ ("code", or_else code (VStr "ERROR"));
                        ("message", message) ] in
        let error_ := if ToBoolean fields
                      then (error_ ++ [ ("fields", fields) ])%list
                      else error_ in
        Normal {| status := statusCode;
                  json := VObj [ ("success", VBool false);
                                 ("error", VObj error_) ] |}
      else
        let* message := get error "message" in
        let* stack := get error "stack" in
        Normal {| status := VNum 500;
                  json := VObj [ ("success", VBool false);
                                 ("error",
                                  VObj ([ ("code", VStr "INTERNAL_ERROR");
                                          ("message",
                                           if isDevelopment then message
                                           else VStr "An unexpected error occurred") ]
                                          ++ (if isDevelopment
                                              then [ ("stack", stack) ]
                                              else []))%list ) ] |}.

(** ** The async handler utility *)

(** How a promise is settled. *)
Inductive settlement :=
| Fulfilled (v : value)
| Rejected (reason : value)
| Pending.

(** What a route handler returns: a plain value, or a promise.  An
    [async] function never throws to its caller: an exception in its
    body is the rejection of the promise it returns. *)
Inductive returned :=
| Plain (v : value)
| Promise (p : settlement).

(** A call of [next(err)]: the effect of the callback the router passes
    to a handler is the list of the calls it receives. *)
Inductive call := Next (err : value).

Definition callback := value -> list call.

(** [Promise.resolve(x)]: a promise is returned as it is, a plain value
    gives a fulfilled promise. *)
Definition Promise_resolve (x : returned) : settlement :=
  match x with
  | Plain v => Fulfilled v
  | Promise p => p
  end.

(** [p.catch(onRejected)]: the calls the reaction makes once [p] is
    settled; it runs only for a rejection, and then once. *)
Definition Promise_catch (p : settlement) (onRejected : callback)
  : list call :=
  match p with
  | Rejected reason => onRejected reason
  | Fulfilled _ | Pending => []
  end.

(** [asyncHandler(routeHandler)(request, response, next)]: the argument
    of [Promise.resolve] is evaluated first, so that an exception of the
    call of [routeHandler] ends the wrapper before any promise exists.
    The result is the completion of the wrapper, with the calls made
    through the reaction it registered. *)
Definition asyncHandler
           (routeHandler : value -> value -> callback -> completion returned)
           (request response : value) (next : callback)
  : completion (list call) :=
  let* result := routeHandler request response next in
  Normal (Promise_catch (Promise_resolve result) next).

(** The [next] of the router, which records the failure it is given. *)
Definition router_next : callback := fun err => [Next err].

(** ** The failure shapes and the five outcomes of the specification

    The tests the handler makes, in the order of section 4.2, and the
    response the specification gives for each shape. *)

Definition is_validation (e : value) : bool :=
  strict_equals (prop e "name") (VStr "ValidationError")
  && ToBoolean (prop e "errors").

Definition is_cast (e : value) : bool :=
  strict_equals (prop e "name") (VStr "CastError").

Definition is_duplicate (e : value) : bool :=
  strict_equals (prop e "code") (VNum 11000).

Definition is_operational (e : value) : bool :=
  ToBoolean (prop e "isOperational").

(** An unclassified failure: an object or a primitive of none of the
    four shapes. *)
Definition unclassified (e : value) : Prop :=
  nullish e = false /\ is_validation e = false /\ is_cast e = false
  /\ is_duplicate e = false /\ is_operational e = false.

(** [{ success: false, error: { ... } }]. *)
Definition error_body (error_ : list (string * value)) : value :=
  VObj [ ("success", VBool false); ("error", VObj error_) ].

Definition validation_response (fieldErrors : list (string * value))
  : response :=
  {| status := VNum 400;
     json := error_body [ ("code", VStr "VALIDATION_ERROR");
                          ("message", getFirstErrorMessage fieldErrors);
                          ("fields", VObj fieldErrors) ] |}.

Definition cast_response : response :=
  {| status := VNum 400;
     json := error_body [ ("code", VStr "INVALID_ID");
                          ("message", VStr "Invalid ID format") ] |}.

Definition duplicate_response (duplicateField : string) : response :=
  {| status := VNum 400;
     json := error_body
               [ ("code", VStr "DUPLICATE_ERROR");
                 ("message",
                  VStr ("A record with this " ++ duplicateField
                          ++ " already exists"));
                 ("fields",
                  VObj [ (duplicateField,
                          VStr ("This " ++ duplicateField
                                  ++ " is already in use")) ]) ] |}.

Definition operational_response (e : value) : response :=
  {| status := prop e "statusCode";
     json := error_body
               ([ ("code", or_else (prop e "code") (VStr "ERROR"));
                  ("message", prop e "message") ]
                  ++ (if ToBoolean (prop e "fields")
                      then [ ("fields", prop e "fields") ]
                      else []))%list |}.

Definition internal_response (development : bool) (e : value) : response :=
  {| status := VNum 500;
     json := error_body
               ([ ("code", VStr "INTERNAL_ERROR");
                  ("message",
                   if development then prop e "message"
                   else VStr "An unexpected error occurred") ]
                  ++ (if development then [ ("stack", prop e "stack") ]
                      else []))%list |}.

(** The five ways a response is produced. *)
Inductive outcome (env : option string) (e : value) (r : response) : Prop :=
| ByValidation f :
    is_validation e = true ->
    extractMongooseErrors e = Normal f -> r = validation_response f ->
    outcome env e r
| ByCast :
    is_validation e = false -> is_cast e = true -> r = cast_response ->
    outcome env e r
| ByDuplicate keys :
    is_validation e = false -> is_cast e = false -> is_duplicate e = true ->
    Object_keys (prop e "keyValue") = Normal keys ->
    r = duplicate_response (key_text (first keys)) ->
    outcome env e r
| ByOperational :
    is_validation e = false -> is_cast e = false -> is_duplicate e = false ->
    is_operational e = true -> r = operational_response e ->
    outcome env e r
| ByInternal :
    unclassified e -> r = internal_response (isDevelopment env) e ->
    outcome env e r.

(** Parts of a response. *)
Definition error_of (r : response) : value := prop (json r) "error".
Definition code_of (r : response) : value := prop (error_of r) "code".
Definition message_of (r : response) : value := prop (error_of r) "message".
Definition fields_of (r : response) : value := prop (error_of r) "fields".

Definition has_field (k : string) (v : value) : bool :=
  match v with
  | VObj props => has_own k props
  | _ => false
  end.

(** The (code, status) table of section 6. *)
Definition taxonomy : list (value * value) :=
  [ (VStr "VALIDATION_ERROR", VNum 400);
    (VStr "INVALID_ID", VNum 400);
    (VStr "DUPLICATE_ERROR", VNum 400);
    (VStr "NOT_FOUND", VNum 404);
    (VStr "UNAUTHORIZED", VNum 401);
    (VStr "FORBIDDEN", VNum 403);
    (VStr "AI_SERVICE_ERROR", VNum 503);
    (VStr "INTERNAL_ERROR", VNum 500) ].

(** ** Storage validation failures

    The object Mongoose rejects a save with: its [name] is
    [ValidationError] and [errors] holds one entry per offending path,
    each with the [path] and the [message] of the failed validator (the
    two properties the handler reads). *)
Record FieldError := {
  path : string;
  message : string
}.

Definition field_error_value (fe : FieldError) : value :=
  VObj [ ("path", VStr (path fe)); ("message", VStr (message fe)) ].

Definition errors_object (errors : list (string * FieldError))
  : list (string * value) :=
  map (fun kv => (fst kv, field_error_value (snd kv))) errors.

(** The entries of [errors] in the order [Object.keys] visits them. *)
Definition offending (errors : list (string * FieldError))
  : list FieldError :=
  flat_map (fun k => match lookup k errors with
                     | Some fe => [fe]
                     | None => []
                     end)
           (OrdinaryOwnPropertyKeys errors).

(** The leaf segment of a dotted path: what follows its last dot, the
    whole path when it has none. *)
Fixpoint leaf_segment (p : string) : string :=
  match p with
  | EmptyString => EmptyString
  | String c r =>
      if includes r "." then leaf_segment r
      else if (c =? ".")%char then r
      else String c r
  end.

(** The [fields] object the specification describes: one entry per
    offending field, keyed by the leaf of its path. *)
Definition leaf_entries (l : list FieldError) : list (string * value) :=
  map (fun fe => (leaf_segment (path fe), VStr (message fe))) l.

(** The object that the assignments [o[k] = v] of strings, made in the
    order of [entries] to an object that reaches the accessor of
    [__proto__], leave. *)
Definition assign_all (entries o : list (string * value))
  : list (string * value) :=
  fold_left (fun o kv => set_prop o (fst kv) (snd kv)) entries o.

(** ** Sample failures *)

(** Two goals of one letter fail their validators. *)
Definition two_goals_errors : list (string * FieldError) :=
  [ ("goals.0.text",
     {| path := "goals.0.text"; message := "Goal text is required" |});
    ("goals.1.text",
     {| path := "goals.1.text";
        message := "Goal cannot exceed 150 characters" |}) ].

Definition two_goals_failure : value :=
  VObj [ ("name", VStr "ValidationError");
         ("message", VStr "Letter validation failed");
         ("errors", VObj (errors_object two_goals_errors)) ].

(** A short reflection and a missing content. *)
Definition letter_failure_errors : list (string * FieldError) :=
  [ ("reflections.0.reflection",
     {| path := "reflections.0.reflection";
        message := "Reflection must be at least 50 characters long" |});
    ("content",
     {| path := "content"; message := "Please write your letter" |}) ].

Definition letter_failure : value :=
  VObj [ ("name", VStr "ValidationError");
         ("message", VStr "Letter validation failed");
         ("errors", VObj (errors_object letter_failure_errors)) ].

(** A validation failure that also carries the duplicate-key code and
    the operational flag. *)
Definition ambiguous_failure : value :=
  VObj [ ("name", VStr "ValidationError");
         ("message", VStr "Letter validation failed");
         ("errors",
          VObj (errors_object
                  [ ("title", {| path := "title"; message := "Too long" |}) ]));
         ("code", VNum 11000);
         ("keyValue", VObj [ ("email", VStr "me@example.org") ]);
         ("isOperational", VBool true);
         ("statusCode", VNum 404) ].

(** The failure of the storage engine for a second account with the
    same email. *)
Definition duplicate_email : value :=
  VObj [ ("name", VStr "MongoServerError");
         ("message", VStr "E11000 duplicate key error collection");
         ("code", VNum 11000);
         ("keyValue", VObj [ ("email", VStr "me@example.org") ]) ].

(** A duplicate-key failure that names no key. *)
Definition duplicate_without_keys : value :=
  VObj [ ("name", VStr "MongoServerError");
         ("message", VStr "E11000 duplicate key error collection");
         ("code", VNum 11000) ].

(** A bug: an exception no branch recognises. *)
Definition boom : value :=
  VObj [ ("name", VStr "Error"); ("message", VStr "boom");
         ("stack", VStr "Error: boom at letters.js:12") ].

(** Route handlers: one that throws before it returns, and an [async]
    one whose promise is rejected. *)
Definition throwing_handler (request response : value) (next : callback)
  : completion returned :=
  Throw (Thrown boom).

Definition rejecting_handler (request response : value) (next : callback)
  : completion returned :=
  Normal (Promise (Rejected boom)).

End ErrorHandler.

(* ================================================================== *)
(** * Further notions used to describe the middleware *)
(* ================================================================== *)

Module Describe.
Import JS ErrorHandler.

(** The value of a parameter with a default. *)
Definition or_default (message : option string) (default : string) : string :=
  match message with Some m => m | None => default end.

(** The last assignment to the key [k] in a list of assignments. *)
Fixpoint last_assigned (k : string) (l : list (string * value))
  : option value :=
  match l with
  | [] => None
  | (k', v) :: t =>
      match last_assigned k t with
      | Some x => Some x
      | None => if (k =? k')%string then Some v else None
      end
  end.

(** The last offending field whose path has the leaf [k]. *)
Fixpoint last_with_leaf (k : string) (l : list FieldError)
  : option FieldError :=
  match l with
  | [] => None
  | fe :: t =>
      match last_with_leaf k t with
      | Some x => Some x
      | None => if (k =? leaf_segment (path fe))%string then Some fe else None
      end
  end.

(** A thrown primitive: a string, a number or a boolean. *)
Definition primitive (e : value) : bool :=
  match e with
  | VStr _ | VNum _ | VBool _ => true
  | _ => false
  end.

(** The body [{ success: false, error: { code, message } }]. *)
Definition plain_body (code message : string) : value :=
  VObj [ ("success", VBool false);
         ("error", VObj [ ("code", VStr code); ("message", VStr message) ]) ].

(** A validation failure with an entry that has no [path], as the failure
    of a nested document can be. *)
Definition pathless_failure : value :=
  VObj [ ("name", VStr "ValidationError");
         ("message", VStr "Letter validation failed");
         ("errors",
          VObj [ ("content",
                  VObj [ ("path", VStr "content");
                         ("message", VStr "Letter content is required") ]);
                 ("goals",
                  VObj [ ("message", VStr "Validation failed") ]) ]) ].

(** A duplicate-key failure on a compound index. *)
Definition duplicate_title : value :=
  VObj [ ("name", VStr "MongoServerError");
         ("message", VStr "E11000 duplicate key error collection");
         ("code", VNum 11000);
         ("keyValue", VObj [ ("user", VStr "6561"); ("title", VStr "Hello") ]) ].

(** A duplicate-key failure with an empty key set. *)
Definition duplicate_empty : value :=
  VObj [ ("name", VStr "MongoServerError");
         ("message", VStr "E11000 duplicate key error collection");
         ("code", VNum 11000);
         ("keyValue", VObj []) ].

(** A failure named like a validation failure whose [errors] is a flag. *)
Definition flagged_failure : value :=
  VObj [ ("name", VStr "ValidationError");
         ("message", VStr "invalid");
         ("errors", VBool true) ].

(** A missing content and a first goal that is no goal document. *)
Definition content_fe : FieldError :=
  {| path := "content"; message := "Letter content is required" |}.

Definition goal_fe : FieldError :=
  {| path := "goals.0"; message := "Cast to Embedded failed" |}.

Definition goal_cast_errors : list (string * FieldError) :=
  [ ("content", content_fe); ("goals.0", goal_fe) ].

Definition goal_cast_failure : value :=
  VObj [ ("name", VStr "ValidationError");
         ("message", VStr "Letter validation failed");
         ("errors", VObj (errors_object goal_cast_errors)) ].

End Describe.

(* ================================================================== *)
(** * Calendar arithmetic *)
(* ================================================================== *)

Import ESDate.

Ltac zdiv := Z.div_mod_to_equations; lia.

Lemma DayFromYear_succ y : DayFromYear (y + 1) = DayFromYear y + DaysInYear y.
Proof.
  unfold DayFromYear, DaysInYear.
  destruct (Z.eqb_spec (y mod 4) 0) as [E4|E4]; cbn [negb];
    [destruct (Z.eqb_spec (y mod 100) 0) as [E100|E100]; cbn [negb];
     [destruct (Z.eqb_spec (y mod 400) 0) as [E400|E400]; cbn [negb]|]|];
    zdiv.
Qed.

Lemma DaysInYear_cases y : DaysInYear y = 365 \/ DaysInYear y = 366.
Proof.
  unfold DaysInYear.
  destruct (y mod 4 =? 0), (y mod 100 =? 0), (y mod 400 =? 0); simpl; auto.
Qed.

Lemma DayFromYear_mono y z : y <= z -> DayFromYear y <= DayFromYear z.
Proof. unfold DayFromYear. intros. zdiv. Qed.

(** [YearFromTime t] is the year whose days contain [Day t], that is the
    largest [y] with [TimeFromYear y <= t]. *)
Lemma YearFromTime_spec t :
  DayFromYear (YearFromTime t) <= Day t < DayFromYear (YearFromTime t + 1).
Proof.
  unfold YearFromTime.
  set (d := Day t). set (y := 1970 + d * 400 / 146097).
  assert (Hlo : DayFromYear (y - 1) <= d) by (unfold DayFromYear, y; zdiv).
  assert (Hhi : d < DayFromYear (y + 2)) by (unfold DayFromYear, y; zdiv).
  destruct (d <? DayFromYear y) eqn:E1.
  - apply Z.ltb_lt in E1. replace (y - 1 + 1) with y by lia. lia.
  - apply Z.ltb_ge in E1.
    destruct (DayFromYear (y + 1) <=? d) eqn:E2.
    + apply Z.leb_le in E2. replace (y + 1 + 1) with (y + 2) by lia. lia.
    + apply Z.leb_gt in E2. lia.
Qed.

Lemma YearFromTime_largest t y :
  TimeFromYear y <= t -> y <= YearFromTime t.
Proof.
  intros H. destruct (Z_le_gt_dec y (YearFromTime t)) as [|G]; [assumption|].
  exfalso.
  assert (DayFromYear (YearFromTime t + 1) <= DayFromYear y)
    by (apply DayFromYear_mono; lia).
  pose proof (YearFromTime_spec t) as S.
  assert (DayFromYear y <= Day t).
  { unfold TimeFromYear, Day, msPerDay in *. zdiv. }
  lia.
Qed.

Lemma DayWithinYear_range t :
  0 <= DayWithinYear t < DaysInYear (YearFromTime t).
Proof.
  unfold DayWithinYear. pose proof (YearFromTime_spec t) as S.
  rewrite DayFromYear_succ in S. lia.
Qed.

Lemma InLeapYear_days t : DaysInYear (YearFromTime t) = 365 + InLeapYear t.
Proof.
  unfold InLeapYear.
  destruct (DaysInYear_cases (YearFromTime t)) as [E|E]; rewrite E; reflexivity.
Qed.

Lemma MonthFromTime_range t : 0 <= MonthFromTime t <= 11.
Proof.
  unfold MonthFromTime.
  repeat match goal with |- context [if ?b then _ else _] => destruct b end; lia.
Qed.

(** The month and the date of a time value give back its day within the
    year. *)
Lemma month_date_DayWithinYear t :
  monthStart (MonthFromTime t) (InLeapYear t) + DateFromTime t - 1
  = DayWithinYear t.
Proof.
  unfold DateFromTime. remember (MonthFromTime t) as m eqn:Hm.
  unfold MonthFromTime in Hm.
  repeat match type of Hm with
         | context [if ?b then _ else _] => destruct b
         end; subst m; cbv [monthStart]; cbv beta iota; lia.
Qed.

Lemma DateFromTime_pos t : 1 <= DateFromTime t.
Proof.
  pose proof (DayWithinYear_range t) as R.
  unfold DateFromTime. remember (MonthFromTime t) as m eqn:Hm.
  unfold MonthFromTime in Hm.
  repeat match type of Hm with
         | context [if ?b then _ else _] =>
             let E := fresh "E" in destruct b eqn:E;
             [apply Z.ltb_lt in E | apply Z.ltb_ge in E]
         end; subst m; cbv beta iota; lia.
Qed.

Lemma MakeDay_month (y m dt : Z) :
  0 <= m <= 11 ->
  MakeDay y m dt
  = DayFromYear y + monthStart m (if DaysInYear y =? 366 then 1 else 0) + dt - 1.
Proof.
  intros Hm. unfold MakeDay.
  replace (m / 12) with 0 by zdiv. replace (m mod 12) with m by zdiv.
  now rewrite Z.add_0_r.
Qed.

(** Year, month and date of a time value name its day. *)
Lemma MakeDay_of_fields t :
  MakeDay (YearFromTime t) (MonthFromTime t) (DateFromTime t) = Day t.
Proof.
  rewrite MakeDay_month by apply MonthFromTime_range.
  fold (InLeapYear t). pose proof (month_date_DayWithinYear t) as E.
  unfold DayWithinYear in E. lia.
Qed.

Lemma utc_midnight_valid t : valid_time t -> valid_time (utc_midnight t).
Proof. unfold valid_time, utc_midnight, Day, maxTime, msPerDay. intros. zdiv. Qed.

Lemma TimeClip_valid x : valid_time x -> TimeClip x = Some x.
Proof.
  unfold valid_time, TimeClip. intros H.
  destruct (maxTime <? Z.abs x) eqn:E; [apply Z.ltb_lt in E; lia | reflexivity].
Qed.

(** Outside the years 0 to 99, [Date.UTC] of the UTC fields of a date is
    the UTC midnight of that date. *)
Lemma Date_UTC_of_fields t :
  valid_time t -> ~ (0 <= YearFromTime t <= 99) ->
  Date_UTC (getUTCFullYear t) (getUTCMonth t) (getUTCDate t)
  = Some (utc_midnight t).
Proof.
  intros V Y. unfold Date_UTC, getUTCFullYear, getUTCMonth, getUTCDate, MakeFullYear.
  replace ((0 <=? YearFromTime t) && (YearFromTime t <=? 99)) with false
    by (symmetry; apply andb_false_iff; rewrite Z.leb_gt, Z.leb_gt; lia).
  rewrite MakeDay_of_fields. unfold MakeDate. rewrite Z.add_0_r, Z.mul_comm.
  apply TimeClip_valid. now apply utc_midnight_valid.
Qed.

Lemma monthStart_leap m : monthStart m 0 <= monthStart m 1 <= monthStart m 0 + 1.
Proof. unfold monthStart. destruct m as [|p|p]; try lia.
  do 4 (destruct p; try lia). Qed.

Lemma monthStart_bit m l l' :
  (l = 0 \/ l = 1) -> (l' = 0 \/ l' = 1) ->
  monthStart m l - 1 <= monthStart m l' <= monthStart m l + 1.
Proof.
  intros [->| ->] [->| ->]; pose proof (monthStart_leap m); lia.
Qed.

(** In the years 0 to 99 [Date.UTC] moves the date into the twentieth
    century. *)
Lemma Date_UTC_two_digit t :
  0 <= YearFromTime t <= 99 ->
  exists x,
    Date_UTC (getUTCFullYear t) (getUTCMonth t) (getUTCDate t) = Some x
    /\ TimeFromYear 1900 - msPerDay <= x <= TimeFromYear 2000 + msPerDay.
Proof.
  intros Y. unfold Date_UTC, getUTCFullYear, getUTCMonth, getUTCDate, MakeFullYear.
  replace ((0 <=? YearFromTime t) && (YearFromTime t <=? 99)) with true
    by (symmetry; apply andb_true_iff; rewrite Z.leb_le, Z.leb_le; lia).
  rewrite MakeDay_month by apply MonthFromTime_range.
  set (y := YearFromTime t) in *.
  set (l' := if DaysInYear (1900 + y) =? 366 then 1 else 0).
  pose proof (month_date_DayWithinYear t) as E.
  pose proof (DayWithinYear_range t) as R.
  pose proof (DaysInYear_cases (YearFromTime t)) as D.
  assert (L : InLeapYear t = 0 \/ InLeapYear t = 1)
    by (unfold InLeapYear; destruct (DaysInYear (YearFromTime t) =? 366); auto).
  assert (L' : l' = 0 \/ l' = 1)
    by (unfold l'; destruct (DaysInYear (1900 + y) =? 366); auto).
  pose proof (monthStart_bit (MonthFromTime t) (InLeapYear t) l' L L') as B.
  pose proof (DayFromYear_mono 1900 (1900 + y) ltac:(lia)) as M1.
  pose proof (DayFromYear_mono (1900 + y) 1999 ltac:(lia)) as M2.
  assert (S : DayFromYear 2000 = DayFromYear 1999 + 365) by reflexivity.
  set (day := DayFromYear (1900 + y) + monthStart (MonthFromTime t) l'
              + DateFromTime t - 1).
  assert (Hd : DayFromYear 1900 - 1 <= day <= DayFromYear 2000 + 1)
    by (unfold day; lia).
  exists (day * msPerDay). split.
  - unfold MakeDate. rewrite Z.add_0_r. apply TimeClip_valid.
    unfold valid_time, maxTime, msPerDay.
    change (DayFromYear 1900) with (-25567) in Hd.
    change (DayFromYear 2000) with 10957 in Hd. lia.
  - unfold TimeFromYear, msPerDay. lia.
Qed.

(* ================================================================== *)
(** * The delivery date rule *)
(* ================================================================== *)

Import Letter.

Lemma utc_midnight_plus_week t :
  utc_midnight (utc_midnight t + 7 * msPerDay) = utc_midnight t + 7 * msPerDay.
Proof. unfold utc_midnight, Day, msPerDay. zdiv. Qed.

Lemma two_digit_year_dec t : {two_digit_year t} + {~ two_digit_year t}.
Proof.
  unfold two_digit_year.
  destruct (Z_le_dec 0 (YearFromTime t)), (Z_le_dec (YearFromTime t) 99);
    (left; lia) || (right; lia).
Qed.

Lemma year2000_not_two_digit t : year2000 <= t -> ~ two_digit_year t.
Proof.
  intros H. unfold two_digit_year.
  assert (2000 <= YearFromTime t) by (apply YearFromTime_largest; exact H).
  lia.
Qed.

Lemma two_digit_year_before_100 t :
  two_digit_year t -> utc_midnight t < TimeFromYear 100.
Proof.
  intros Y. pose proof (YearFromTime_spec t) as S.
  pose proof (DayFromYear_mono (YearFromTime t + 1) 100) as M.
  unfold two_digit_year in Y. unfold utc_midnight, TimeFromYear, msPerDay. lia.
Qed.

Lemma validator_gate_open this now value :
  isNew this || isModified this "deliveredAt" = true ->
  valid_time now -> valid_time value ->
  validator this now value = far_enough now value.
Proof.
  intros G Vn Vv. unfold validator, far_enough, new_Date.
  rewrite G, (TimeClip_valid now Vn), (TimeClip_valid value Vv).
  cbv beta iota zeta.
  reflexivity.
Qed.

(** A candidate date out of the range of time values is an Invalid Date,
    which the open gate rejects. *)
Lemma validator_invalid_date this now value :
  isNew this || isModified this "deliveredAt" = true ->
  ~ valid_time value -> validator this now value = false.
Proof.
  intros G I. unfold validator, new_Date. rewrite G.
  assert (E : TimeClip value = None).
  { unfold TimeClip, valid_time in *.
    destruct (maxTime <? Z.abs value) eqn:L; [reflexivity|].
    apply Z.ltb_ge in L. exfalso. apply I. lia. }
  rewrite E. cbv beta iota zeta. reflexivity.
Qed.

Lemma far_enough_plain now d :
  valid_time now -> valid_time d ->
  ~ two_digit_year now -> ~ two_digit_year d ->
  far_enough now d = (utc_midnight now + 7 * msPerDay <=? utc_midnight d).
Proof.
  intros Vn Vd Yn Yd. unfold far_enough.
  rewrite (Date_UTC_of_fields now Vn Yn), (Date_UTC_of_fields d Vd Yd).
  cbn [num_add num_ge].
  replace (7 * 24 * 60 * 60 * 1000) with (7 * msPerDay)
    by (vm_compute; reflexivity).
  reflexivity.
Qed.

Lemma far_enough_rule now d :
  valid_time now -> valid_time d ->
  (~ two_digit_year now /\ ~ two_digit_year d) \/ year2000 <= now ->
  far_enough now d = (utc_midnight now + 7 * msPerDay <=? utc_midnight d).
Proof.
  intros Vn Vd [[Yn Yd]|H2000]; [now apply far_enough_plain|].
  pose proof (year2000_not_two_digit now H2000) as Yn.
  destruct (two_digit_year_dec d) as [Yd|Yd]; [|now apply far_enough_plain].
  unfold far_enough. rewrite (Date_UTC_of_fields now Vn Yn).
  destruct (Date_UTC_two_digit d Yd) as (x & -> & Hx).
  pose proof (two_digit_year_before_100 d Yd) as Hd.
  assert (Hn : year2000 <= utc_midnight now)
    by (unfold utc_midnight, Day, year2000, msPerDay in *; zdiv).
  cbn [num_add num_ge].
  change (TimeFromYear 2000) with 946684800000 in Hx.
  change (TimeFromYear 100) with (-59011459200000) in Hd.
  unfold year2000, msPerDay in *.
  transitivity false; [|symmetry]; apply Z.leb_gt; lia.
Qed.

Lemma far_enough_boundary now :
  valid_time now -> valid_time (utc_midnight now + 7 * msPerDay) ->
  ~ two_digit_year now ->
  far_enough now (utc_midnight now + 7 * msPerDay) = true.
Proof.
  intros Vn Vb Yn. set (b := utc_midnight now + 7 * msPerDay) in *.
  destruct (two_digit_year_dec b) as [Yb|Yb].
  - unfold far_enough. rewrite (Date_UTC_of_fields now Vn Yn).
    destruct (Date_UTC_two_digit b Yb) as (x & -> & Hx).
    pose proof (two_digit_year_before_100 b Yb) as Hb.
    unfold b in Hb at 1. rewrite utc_midnight_plus_week in Hb. fold b in Hb.
    cbn [num_add num_ge].
    change (TimeFromYear 1900) with (-2208988800000) in Hx.
    change (TimeFromYear 100) with (-59011459200000) in Hb.
    unfold msPerDay in *. apply Z.leb_le. fold (utc_midnight now).
    unfold b, msPerDay in *. lia.
  - rewrite far_enough_plain by assumption.
    unfold b. rewrite utc_midnight_plus_week. apply Z.leb_refl.
Qed.

(** The rule of the specification holds whenever the clock is on or after
    1 January 2000 UTC, or neither date lies in the years 0 to 99 (which
    [Date.UTC] reads as 1900 to 1999).  For a new letter, or when
    [deliveredAt] is modified, and for such valid dates [d] and [now]: the
    validator accepts [d] if and only if [d] truncated to UTC midnight is
    at least [now] truncated to UTC midnight plus 7 days; an earlier date
    is rejected with the message "Delivery date must be at least one week
    in the future."; and the boundary date, UTC midnight of [now] plus 7
    days, is accepted. *)
Theorem deliveredAt_seven_day_rule (this : Document) (now d : Z) :
  isNew this || isModified this "deliveredAt" = true ->
  valid_time now -> valid_time d ->
  (~ two_digit_year now /\ ~ two_digit_year d) \/ year2000 <= now ->
  (validator this now d = true
   <-> utc_midnight now + 7 * msPerDay <= utc_midnight d)
  /\ (utc_midnight d < utc_midnight now + 7 * msPerDay ->
      validate this now d
      = Some "Delivery date must be at least one week in the future.")
  /\ (valid_time (utc_midnight now + 7 * msPerDay) ->
      validator this now (utc_midnight now + 7 * msPerDay) = true).
Proof.
  intros G Vn Vd Y.
  assert (E : validator this now d
              = (utc_midnight now + 7 * msPerDay <=? utc_midnight d))
    by (rewrite (validator_gate_open _ _ _ G Vn Vd); now apply far_enough_rule).
  split; [|split].
  - rewrite E. apply Z.leb_le.
  - intros L. unfold validate. rewrite E.
    replace (utc_midnight now + 7 * msPerDay <=? utc_midnight d) with false
      by (symmetry; apply Z.leb_gt; exact L).
    reflexivity.
  - intros Vb. rewrite (validator_gate_open _ _ _ G Vn Vb).
    apply far_enough_boundary; try assumption.
    destruct Y as [[Yn _]|H]; [assumption | now apply year2000_not_two_digit].
Qed.

(** 2 November 2026, 05:58 UTC, and 9 November 2026, 00:00 UTC. *)
Lemma deliveredAt_seven_day_rule_witness :
  (validator new_letter 1793599080000 1794182400000 = true
   <-> utc_midnight 1793599080000 + 7 * msPerDay <= utc_midnight 1794182400000)
  /\ (utc_midnight 1794182400000 < utc_midnight 1793599080000 + 7 * msPerDay ->
      validate new_letter 1793599080000 1794182400000
      = Some "Delivery date must be at least one week in the future.")
  /\ (valid_time (utc_midnight 1793599080000 + 7 * msPerDay) ->
      validator new_letter 1793599080000
        (utc_midnight 1793599080000 + 7 * msPerDay) = true).
Proof.
  apply (deliveredAt_seven_day_rule new_letter 1793599080000 1794182400000).
  - reflexivity.
  - unfold valid_time, maxTime; lia.
  - unfold valid_time, maxTime; lia.
  - right. unfold year2000. lia.
Defined.


(** C2.  On an existing letter whose [deliveredAt] is not modified the
    validator returns true for every stored value and every current time,
    so also for a date in the past; conversely the validator rejects a
    value only when the letter is new or [deliveredAt] is modified. *)
Theorem validator_skips_other_updates (this : Document) :
  isNew this = false -> isModified this "deliveredAt" = false ->
  (forall now value, validator this now value = true)
  /\ (forall now value, validate this now value = None)
  /\ (forall (that : Document) now value,
         validator that now value = false ->
         isNew that = true \/ isModified that "deliveredAt" = true).
Proof.
  intros N M. split; [|split].
  - intros now value. unfold validator. rewrite N, M. reflexivity.
  - intros now value. unfold validate, validator. rewrite N, M. reflexivity.
  - intros that now value. unfold validator.
    destruct (isNew that); [auto|].
    destruct (isModified that "deliveredAt"); [auto|]. discriminate.
Qed.

(** A stored letter whose date, 1 January 2020, is long past on
    2 November 2026. *)
Lemma validator_skips_other_updates_witness :
  validator stored_letter 1793599080000 1577836800000 = true
  /\ validate stored_letter 1793599080000 1577836800000 = None.
Proof.
  destruct (validator_skips_other_updates stored_letter eq_refl eq_refl)
    as (V & W & _).
  split; [apply V | apply W].
Defined.

(* ================================================================== *)
(** * Property keys and their order *)
(* ================================================================== *)

Import JS.

Lemma insert_index_length k l :
  List.length (insert_index k l) = S (List.length l).
Proof.
  induction l as [|h t IH]; cbn; [reflexivity|].
  destruct (index_of k <=? index_of h); cbn; [reflexivity|now rewrite IH].
Qed.

Lemma insert_index_In x k l : In x (insert_index k l) <-> x = k \/ In x l.
Proof.
  induction l as [|h t IH]; cbn; [intuition|].
  destruct (index_of k <=? index_of h); cbn; [intuition|].
  rewrite IH. intuition.
Qed.

Lemma sort_indices_length l : List.length (sort_indices l) = List.length l.
Proof.
  unfold sort_indices. induction l as [|h t IH]; cbn [fold_right];
    [reflexivity|].
  rewrite insert_index_length. cbn. now rewrite IH.
Qed.

Lemma sort_indices_In x l : In x (sort_indices l) <-> In x l.
Proof.
  unfold sort_indices. induction l as [|h t IH]; cbn [fold_right];
    [reflexivity|].
  rewrite insert_index_In, IH. cbn. intuition.
Qed.

Lemma filter_partition_length {A} (p : A -> bool) (l : list A) :
  (List.length (filter p l) + List.length (filter (fun x => negb (p x)) l)
   = List.length l)%nat.
Proof.
  induction l as [|h t IH]; cbn; [reflexivity|].
  destruct (p h); cbn; lia.
Qed.

(** [Object.keys] lists every property once. *)
Lemma OrdinaryOwnPropertyKeys_length {V} (props : list (string * V)) :
  List.length (OrdinaryOwnPropertyKeys props) = List.length props.
Proof.
  unfold OrdinaryOwnPropertyKeys.
  rewrite length_app, sort_indices_length, filter_partition_length.
  apply length_map.
Qed.

Lemma OrdinaryOwnPropertyKeys_In {V} (props : list (string * V)) k :
  In k (OrdinaryOwnPropertyKeys props) <-> In k (map fst props).
Proof.
  unfold OrdinaryOwnPropertyKeys.
  rewrite in_app_iff, sort_indices_In, !filter_In.
  destruct (is_array_index k); cbn; intuition discriminate.
Qed.

(** Without array indices among the keys, the order is that of creation. *)
Lemma OrdinaryOwnPropertyKeys_plain {V} (props : list (string * V)) :
  (forall k, In k (map fst props) -> is_array_index k = false) ->
  OrdinaryOwnPropertyKeys props = map fst props.
Proof.
  unfold OrdinaryOwnPropertyKeys. generalize (map fst props) as ks.
  induction ks as [|h t IH]; intros H; [reflexivity|].
  cbn [filter]. rewrite (H h) by now left. cbn [negb].
  specialize (IH (fun k Hk => H k (or_intror Hk))).
  assert (F : filter is_array_index t = []).
  { clear IH. induction t as [|x t IHt]; [reflexivity|].
    cbn. rewrite (H x) by (right; now left).
    apply IHt. intros k [->|Hk]; apply H; [now left | right; now right]. }
  rewrite F in *. cbn in *. now rewrite IH.
Qed.

(* ================================================================== *)
(** * Dotted paths *)
(* ================================================================== *)

Import ErrorHandler.

Lemma split_without p c : includes p c = false -> split p c = [p].
Proof.
  induction p as [|a r IH]; cbn; [reflexivity|].
  destruct (a =? c)%char; cbn; [discriminate|].
  intros H. now rewrite (IH H).
Qed.

Lemma split_with p c :
  includes p c = true -> exists h x t, split p c = h :: x :: t.
Proof.
  induction p as [|a r IH]; cbn; [discriminate|].
  destruct (a =? c)%char eqn:E; cbn.
  - intros _. destruct (includes r c) eqn:I.
    + destruct (IH eq_refl) as (h & x & t & ->). eauto.
    + rewrite (split_without r c I). eauto.
  - intros I. destruct (IH I) as (h & x & t & ->). eauto.
Qed.

(** The field name the handler computes is the leaf segment of the path. *)
Lemma pop_split_leaf p :
  (if includes p "." then pop (split p ".") else p) = leaf_segment p.
Proof.
  induction p as [|a r IH]; [reflexivity|].
  cbn [includes split leaf_segment].
  destruct (includes r ".") eqn:I.
  - rewrite orb_true_r. rewrite <- IH.
    destruct (split_with r "." I) as (h & x & t & ->).
    destruct (a =? ".")%char; reflexivity.
  - rewrite orb_false_r. rewrite (split_without r "." I).
    destruct (a =? ".")%char; reflexivity.
Qed.

Lemma fieldName_of_path p : fieldName_of (VStr p) = Normal (leaf_segment p).
Proof. unfold fieldName_of. now rewrite pop_split_leaf. Qed.

(** A leaf segment has no dot, and the path ends with it. *)
Lemma leaf_segment_no_dot p : includes (leaf_segment p) "." = false.
Proof.
  induction p as [|a r IH]; [reflexivity|]. cbn [leaf_segment].
  destruct (includes r ".") eqn:I; [exact IH|].
  destruct (a =? ".")%char eqn:E; [exact I|].
  cbn. now rewrite E, I.
Qed.

Lemma leaf_segment_suffix p :
  p = leaf_segment p
  \/ exists prefix, p = (prefix ++ "." ++ leaf_segment p)%string.
Proof.
  induction p as [|a r IH]; [now left|]. cbn [leaf_segment].
  destruct (includes r ".") eqn:I.
  - right. destruct IH as [E|(prefix & E)].
    + pose proof (leaf_segment_no_dot r) as L. rewrite <- E in L. congruence.
    + exists (String a prefix). cbn [String.append]. f_equal. exact E.
  - destruct (Ascii.eqb_spec a "."); [|now left].
    right. exists EmptyString. now subst.
Qed.

(* ================================================================== *)
(** * The error handler: classification *)
(* ================================================================== *)

Import JS ErrorHandler.

Lemma get_prop e k : nullish e = false -> get e k = Normal (prop e k).
Proof. intros H. unfold get. now rewrite H. Qed.

(** The handler is the first-match chain of the five outcomes. *)
Lemma errorHandler_chain env e :
  nullish e = false ->
  errorHandler env e =
  if is_validation e then
    bind (extractMongooseErrors e) (fun f => Normal (validation_response f))
  else if is_cast e then Normal cast_response
  else if is_duplicate e then
    bind (Object_keys (prop e "keyValue"))
         (fun keys => Normal (duplicate_response (key_text (first keys))))
  else if is_operational e then Normal (operational_response e)
  else Normal (internal_response (isDevelopment env) e).
Proof.
  intros H. unfold errorHandler. rewrite !(get_prop e) by exact H.
  cbn [bind]. fold (is_validation e) (is_cast e).
  destruct (is_validation e); [reflexivity|].
  destruct (is_cast e); [reflexivity|].
  fold (is_duplicate e). destruct (is_duplicate e); [reflexivity|].
  fold (is_operational e). destruct (is_operational e); [|reflexivity].
  unfold operational_response, error_body.
  destruct (ToBoolean (prop e "fields")); reflexivity.
Qed.

Lemma errorHandler_nullish env e :
  nullish e = true -> errorHandler env e = Throw TypeError.
Proof. intros H. unfold errorHandler, get. rewrite H. reflexivity. Qed.

Lemma bind_Normal_inv {A B} (c : completion A) (k : A -> completion B) b :
  bind c k = Normal b -> exists a, c = Normal a /\ k a = Normal b.
Proof. destruct c as [a|x]; cbn; [eauto | discriminate]. Qed.

Lemma errorHandler_Normal_nullish env e r :
  errorHandler env e = Normal r -> nullish e = false.
Proof.
  intros H. destruct (nullish e) eqn:N; [|reflexivity].
  rewrite (errorHandler_nullish env e N) in H. discriminate.
Qed.

Lemma errorHandler_outcome env e r :
  errorHandler env e = Normal r -> outcome env e r.
Proof.
  intros H. pose proof (errorHandler_Normal_nullish env e r H) as N.
  rewrite (errorHandler_chain env e N) in H.
  destruct (is_validation e) eqn:V.
  { apply bind_Normal_inv in H as (f & Hf & Hr). injection Hr as <-.
    now apply (ByValidation env e _ f). }
  destruct (is_cast e) eqn:C.
  { injection H as <-. now apply ByCast. }
  destruct (is_duplicate e) eqn:D.
  { apply bind_Normal_inv in H as (keys & Hk & Hr). injection Hr as <-.
    now apply (ByDuplicate env e _ keys). }
  destruct (is_operational e) eqn:O.
  { injection H as <-. now apply ByOperational. }
  injection H as <-. apply ByInternal; [|reflexivity].
  unfold unclassified. auto.
Qed.

(** C7.  The handler tests the shapes in a fixed first-match order:
    storage validation failure, storage cast failure, duplicate key,
    operational error (its code, [ERROR] when it has none, its message,
    its status code, and its fields when present), and then the
    unclassified internal failure; a failure that matches a shape is
    handled by that shape's branch whatever later tests it also
    satisfies. *)
Theorem classification_is_first_match (env : option string) (e : value) :
  nullish e = false ->
  (is_validation e = true ->
   errorHandler env e
   = bind (extractMongooseErrors e) (fun f => Normal (validation_response f)))
  /\ (is_validation e = false -> is_cast e = true ->
      errorHandler env e = Normal cast_response)
  /\ (is_validation e = false -> is_cast e = false -> is_duplicate e = true ->
      errorHandler env e
      = bind (Object_keys (prop e "keyValue"))
             (fun keys => Normal (duplicate_response (key_text (first keys)))))
  /\ (is_validation e = false -> is_cast e = false -> is_duplicate e = false ->
      is_operational e = true ->
      exists r,
        errorHandler env e = Normal r
        /\ r = operational_response e
        /\ code_of r = or_else (prop e "code") (VStr "ERROR")
        /\ message_of r = prop e "message"
        /\ status r = prop e "statusCode"
        /\ (if ToBoolean (prop e "fields")
            then fields_of r = prop e "fields"
            else has_field "fields" (error_of r) = false))
  /\ (is_validation e = false -> is_cast e = false -> is_duplicate e = false ->
      is_operational e = false ->
      errorHandler env e = Normal (internal_response (isDevelopment env) e)).
Proof.
  intros N. rewrite (errorHandler_chain env e N).
  split; [|split; [|split; [|split]]]; intros;
    repeat match goal with H : _ = _ |- _ => rewrite H end;
    try reflexivity.
  eexists. split; [reflexivity|]. split; [reflexivity|].
  unfold operational_response.
  destruct (ToBoolean (prop e "fields")); repeat split.
Qed.

(** A validation failure that also carries the duplicate-key code and the
    operational flag is answered as a validation failure. *)
Lemma classification_is_first_match_witness :
  errorHandler (Some "production") ambiguous_failure
  = Normal (validation_response [ ("title", VStr "Too long") ])
  /\ is_duplicate ambiguous_failure = true
  /\ is_operational ambiguous_failure = true.
Proof.
  destruct (classification_is_first_match (Some "production") ambiguous_failure
              eq_refl) as (V & _).
  split; [|split; reflexivity].
  rewrite (V eq_refl). reflexivity.
Defined.

(** C8.  A duplicate-key failure (code 11000, neither validation- nor
    cast-shaped) whose key set has first key [f] is answered with status
    400 and the body with code [DUPLICATE_ERROR], the message "A record
    with this f already exists" and the fields object that maps [f] to
    "This f is already in use"; for [email] this is the body of the
    specification. *)
Theorem duplicate_key_response (env : option string) (e : value)
        (f : string) (others : list string) :
  nullish e = false -> is_validation e = false -> is_cast e = false ->
  prop e "code" = VNum 11000 ->
  Object_keys (prop e "keyValue") = Normal (f :: others) ->
  errorHandler env e
  = Normal {| status := VNum 400;
              json := VObj [ ("success", VBool false);
                             ("error",
                              VObj [ ("code", VStr "DUPLICATE_ERROR");
                                     ("message",
                                      VStr ("A record with this " ++ f
                                              ++ " already exists"));
                                     ("fields",
                                      VObj [ (f, VStr ("This " ++ f
                                                         ++ " is already in use")) ]) ]) ] |}
  /\ (f = "email" ->
      errorHandler env e
      = Normal {| status := VNum 400;
                  json := VObj [ ("success", VBool false);
                                 ("error",
                                  VObj [ ("code", VStr "DUPLICATE_ERROR");
                                         ("message",
                                          VStr "A record with this email already exists");
                                         ("fields",
                                          VObj [ ("email",
                                                  VStr "This email is already in use") ]) ]) ] |}).
Proof.
  intros N V C D K.
  assert (E : errorHandler env e = Normal (duplicate_response f)).
  { rewrite (errorHandler_chain env e N), V, C.
    unfold is_duplicate. rewrite D. cbn [strict_equals Z.eqb Pos.eqb].
    rewrite K. reflexivity. }
  split; [exact E|]. intros ->. exact E.
Qed.

Lemma duplicate_key_response_witness :
  errorHandler (Some "production") duplicate_email
  = Normal {| status := VNum 400;
              json := VObj [ ("success", VBool false);
                             ("error",
                              VObj [ ("code", VStr "DUPLICATE_ERROR");
                                     ("message",
                                      VStr "A record with this email already exists");
                                     ("fields",
                                      VObj [ ("email",
                                              VStr "This email is already in use") ]) ]) ] |}.
Proof.
  apply (duplicate_key_response (Some "production") duplicate_email
           "email" []); reflexivity.
Defined.

(** C10.  The duplicate-key branch is partial: a failure with code 11000
    (neither validation- nor cast-shaped) that carries no [keyValue] makes
    the handler itself raise a [TypeError], so that no response is
    produced; when the failure carries a non-empty [keyValue] object the
    branch produces its response. *)
Theorem duplicate_branch_partial (env : option string) (e : value) :
  nullish e = false -> is_validation e = false -> is_cast e = false ->
  is_duplicate e = true ->
  (nullish (prop e "keyValue") = true ->
   errorHandler env e = Throw TypeError
   /\ forall r, errorHandler env e <> Normal r)
  /\ (forall k v rest,
         prop e "keyValue" = VObj ((k, v) :: rest) ->
         exists f, errorHandler env e = Normal (duplicate_response f)
                   /\ In f (map fst ((k, v) :: rest))).
Proof.
  intros N V C D.
  assert (E : errorHandler env e
              = bind (Object_keys (prop e "keyValue"))
                     (fun keys =>
                        Normal (duplicate_response (key_text (first keys)))))
    by (rewrite (errorHandler_chain env e N), V, C, D; reflexivity).
  split.
  - intros K. rewrite E.
    destruct (prop e "keyValue"); try discriminate K;
      (split; [reflexivity | discriminate]).
  - intros k v rest K. rewrite E, K. cbn [Object_keys bind].
    destruct (OrdinaryOwnPropertyKeys ((k, v) :: rest)) as [|f keys] eqn:Ks.
    + apply (f_equal (@List.length string)) in Ks.
      rewrite OrdinaryOwnPropertyKeys_length in Ks. discriminate.
    + exists f. split; [reflexivity|].
      apply OrdinaryOwnPropertyKeys_In. rewrite Ks. now left.
Qed.

Lemma duplicate_branch_partial_witness :
  errorHandler (Some "production") duplicate_without_keys = Throw TypeError
  /\ forall r, errorHandler (Some "production") duplicate_without_keys
               <> Normal r.
Proof.
  apply (duplicate_branch_partial (Some "production") duplicate_without_keys);
    reflexivity.
Defined.

(** C6.  For an unclassified failure the status is 500 in both modes.
    Outside development the body is the fixed one, with the message "An
    unexpected error occurred" and no stack entry, whatever the failure:
    two unclassified failures get the same response.  In development the
    body carries the message and the stack of the failure. *)
Theorem internal_error_hides_detail (env : option string) (e e' : value) :
  unclassified e -> unclassified e' ->
  (isDevelopment env = false ->
   errorHandler env e
   = Normal {| status := VNum 500;
               json := VObj [ ("success", VBool false);
                              ("error",
                               VObj [ ("code", VStr "INTERNAL_ERROR");
                                      ("message",
                                       VStr "An unexpected error occurred") ]) ] |}
   /\ errorHandler env e = errorHandler env e'
   /\ forall r, errorHandler env e = Normal r ->
                has_field "stack" (error_of r) = false)
  /\ (isDevelopment env = true ->
      errorHandler env e
      = Normal {| status := VNum 500;
                  json := VObj [ ("success", VBool false);
                                 ("error",
                                  VObj [ ("code", VStr "INTERNAL_ERROR");
                                         ("message", prop e "message");
                                         ("stack", prop e "stack") ]) ] |}).
Proof.
  intros (N & V & C & D & O) (N' & V' & C' & D' & O').
  assert (E : forall x, nullish x = false -> is_validation x = false ->
                        is_cast x = false -> is_duplicate x = false ->
                        is_operational x = false ->
                        errorHandler env x
                        = Normal (internal_response (isDevelopment env) x)).
  { intros x Nx Vx Cx Dx Ox.
    now rewrite (errorHandler_chain env x Nx), Vx, Cx, Dx, Ox. }
  split; intros M.
  - rewrite (E e), (E e') by assumption. rewrite M.
    split; [reflexivity|]. split; [reflexivity|].
    intros r H. injection H as <-. reflexivity.
  - rewrite (E e) by assumption. rewrite M. reflexivity.
Qed.

Lemma internal_error_hides_detail_witness :
  (errorHandler (Some "production") boom
   = Normal {| status := VNum 500;
               json := VObj [ ("success", VBool false);
                              ("error",
                               VObj [ ("code", VStr "INTERNAL_ERROR");
                                      ("message",
                                       VStr "An unexpected error occurred") ]) ] |})
  /\ (errorHandler (Some "development") boom
      = Normal {| status := VNum 500;
                  json := VObj [ ("success", VBool false);
                                 ("error",
                                  VObj [ ("code", VStr "INTERNAL_ERROR");
                                         ("message", VStr "boom");
                                         ("stack",
                                          VStr "Error: boom at letters.js:12") ]) ] |}).
Proof.
  assert (U : unclassified boom) by (repeat split).
  split.
  - destruct (internal_error_hides_detail (Some "production") boom boom U U)
      as (P & _).
    exact (proj1 (P eq_refl)).
  - destruct (internal_error_hides_detail (Some "development") boom boom U U)
      as (_ & D).
    exact (D eq_refl).
Defined.

(** C9.  Every response body has [success] equal to [false].  Its error
    object has a [fields] entry only when the failure carries field-level
    detail: a storage validation failure (its [errors] collection), a
    duplicate-key failure (its key), or an operational error whose
    [fields] is set.  It has a [stack] entry only in development mode and
    only for the unclassified failure answered with [INTERNAL_ERROR]. *)
Theorem response_body_shape (env : option string) (e : value) (r : response) :
  errorHandler env e = Normal r ->
  prop (json r) "success" = VBool false
  /\ (has_field "fields" (error_of r) = true ->
      is_validation e = true
      \/ (is_validation e = false /\ is_cast e = false
          /\ is_duplicate e = true)
      \/ (is_validation e = false /\ is_cast e = false
          /\ is_duplicate e = false /\ is_operational e = true
          /\ ToBoolean (prop e "fields") = true))
  /\ (has_field "stack" (error_of r) = true ->
      isDevelopment env = true /\ unclassified e
      /\ code_of r = VStr "INTERNAL_ERROR").
Proof.
  intros H. destruct (errorHandler_outcome env e r H)
    as [f V Hf ->|V C ->|keys V C D K ->|V C D O ->|U ->].
  - split; [reflexivity|]. split; [auto | discriminate].
  - split; [reflexivity|]. split; discriminate.
  - split; [reflexivity|]. split; [auto | discriminate].
  - split; [reflexivity|]. unfold operational_response.
    destruct (ToBoolean (prop e "fields")) eqn:F.
    + split; [intros _; right; right; auto | discriminate].
    + split; discriminate.
  - split; [reflexivity|]. unfold internal_response.
    destruct (isDevelopment env).
    + split; [discriminate | auto].
    + split; discriminate.
Qed.

Lemma response_body_shape_witness :
  prop (json (internal_response true boom)) "success" = VBool false
  /\ has_field "stack" (error_of (internal_response true boom)) = true
  /\ isDevelopment (Some "development") = true
  /\ unclassified boom.
Proof.
  destruct (response_body_shape (Some "development") boom
              (internal_response true boom) eq_refl) as (S & _ & K).
  destruct (K eq_refl) as (D & U & _).
  repeat split; try assumption; apply U.
Defined.

(** C4 as stated fails: the base class [AppError] is exported, and an
    instance of it has no code, so that the handler answers it with the
    code [ERROR], which is none of the eight. *)
Lemma taxonomy_counterexample :
  exists r,
    errorHandler (Some "production")
                 (AppError "Error: Letter is locked" (Some "Letter is locked")
                           None)
    = Normal r
    /\ code_of r = VStr "ERROR" /\ status r = VNum 400
    /\ ~ In (code_of r, status r) taxonomy.
Proof.
  eexists. split; [reflexivity|]. split; [reflexivity|].
  split; [reflexivity|].
  cbn. intros H. repeat (destruct H as [H|H]; [discriminate H|]). exact H.
Qed.

(** C4 (amended).  Every response of the handler has for (code, status)
    one of [VALIDATION_ERROR]/400, [INVALID_ID]/400, [DUPLICATE_ERROR]/400
    and [INTERNAL_ERROR]/500 or, for an operational error, the code of the
    error ([ERROR] when it has none) with its own status code; the errors
    of the five taxonomy classes are answered with [VALIDATION_ERROR]/400,
    [NOT_FOUND]/404, [FORBIDDEN]/403, [UNAUTHORIZED]/401 and
    [AI_SERVICE_ERROR]/503, each in the table of the specification; and an
    unclassified failure is answered with [INTERNAL_ERROR]/500. *)
Theorem code_status_outcomes (env : option string) (e : value) :
  (forall r, errorHandler env e = Normal r ->
     In (code_of r, status r)
        [ (VStr "VALIDATION_ERROR", VNum 400); (VStr "INVALID_ID", VNum 400);
          (VStr "DUPLICATE_ERROR", VNum 400); (VStr "INTERNAL_ERROR", VNum 500) ]
     \/ (is_operational e = true
         /\ code_of r = or_else (prop e "code") (VStr "ERROR")
         /\ status r = prop e "statusCode"))
  /\ (forall stack msg fieldErrors originalError,
        (exists r, errorHandler env (ValidationError stack msg fieldErrors)
                   = Normal r
                   /\ (code_of r, status r) = (VStr "VALIDATION_ERROR", VNum 400))
        /\ (exists r, errorHandler env (NotFoundError stack msg) = Normal r
                      /\ (code_of r, status r) = (VStr "NOT_FOUND", VNum 404))
        /\ (exists r, errorHandler env (ForbiddenError stack msg) = Normal r
                      /\ (code_of r, status r) = (VStr "FORBIDDEN", VNum 403))
        /\ (exists r, errorHandler env (UnauthorizedError stack msg) = Normal r
                      /\ (code_of r, status r) = (VStr "UNAUTHORIZED", VNum 401))
        /\ (exists r, errorHandler env (AIServiceError stack msg originalError)
                      = Normal r
                      /\ (code_of r, status r)
                         = (VStr "AI_SERVICE_ERROR", VNum 503)))
  /\ (unclassified e ->
      exists r, errorHandler env e = Normal r
                /\ (code_of r, status r) = (VStr "INTERNAL_ERROR", VNum 500)).
Proof.
  split; [|split].
  - intros r H. destruct (errorHandler_outcome env e r H)
      as [f V Hf ->|V C ->|keys V C D K ->|V C D O ->|U ->].
    + left. cbn. auto.
    + left. cbn. auto.
    + left. cbn. auto.
    + right. split; [exact O|]. unfold operational_response.
      destruct (ToBoolean (prop e "fields")); split; reflexivity.
    + left. unfold internal_response.
      destruct (isDevelopment env); cbn; auto.
  - intros stack msg fieldErrors originalError. repeat split.
    + eexists. split.
      * rewrite errorHandler_chain by reflexivity. reflexivity.
      * reflexivity.
    + eexists. split; [reflexivity|]. reflexivity.
    + eexists. split; [reflexivity|]. reflexivity.
    + eexists. split; [reflexivity|]. reflexivity.
    + eexists. split.
      * rewrite errorHandler_chain by reflexivity. reflexivity.
      * reflexivity.
  - intros (N & V & C & D & O). eexists. split.
    + rewrite (errorHandler_chain env e N), V, C, D, O. reflexivity.
    + unfold internal_response. destruct (isDevelopment env); reflexivity.
Qed.

Lemma code_status_outcomes_witness :
  exists r, errorHandler (Some "production") boom = Normal r
            /\ (code_of r, status r) = (VStr "INTERNAL_ERROR", VNum 500).
Proof.
  destruct (code_status_outcomes (Some "production") boom) as (_ & _ & U).
  apply U. repeat split.
Defined.

(* ================================================================== *)
(** * Storage validation failures *)
(* ================================================================== *)

Lemma lookup_In {V} k (l : list (string * V)) :
  In k (map fst l) -> exists v, lookup k l = Some v.
Proof.
  induction l as [|[k' v] t IH]; cbn; [tauto|].
  destruct (String.eqb_spec k k'); [eauto|].
  intros [E|H]; [congruence | auto].
Qed.

Lemma lookup_None {V} k (l : list (string * V)) :
  lookup k l = None <-> ~ In k (map fst l).
Proof.
  induction l as [|[k' v] t IH]; cbn; [tauto|].
  destruct (String.eqb_spec k k'); [|rewrite IH]; intuition congruence.
Qed.

Lemma has_own_In {V} k (l : list (string * V)) :
  has_own k l = true <-> In k (map fst l).
Proof.
  unfold has_own. split.
  - destruct (lookup k l) eqn:E; [|discriminate]. intros _.
    destruct (in_dec string_dec k (map fst l)) as [|n]; [assumption|].
    apply lookup_None in n. congruence.
  - intros H. destruct (lookup_In k l H) as (v & ->). reflexivity.
Qed.

Lemma lookup_errors_object k errs :
  lookup k (errors_object errs) = option_map field_error_value (lookup k errs).
Proof.
  induction errs as [|[k' fe] t IH]; cbn; [reflexivity|].
  destruct (k =? k')%string; [reflexivity | exact IH].
Qed.

Lemma keys_errors_object errs :
  OrdinaryOwnPropertyKeys (errors_object errs) = OrdinaryOwnPropertyKeys errs.
Proof.
  unfold OrdinaryOwnPropertyKeys, errors_object. now rewrite map_map.
Qed.

Lemma leaf_entries_app a b :
  leaf_entries (a ++ b) = (leaf_entries a ++ leaf_entries b)%list.
Proof. apply map_app. Qed.

Lemma assign_all_app a b o :
  assign_all (a ++ b) o = assign_all b (assign_all a o).
Proof. apply fold_left_app. Qed.

(** ** What [extractMongooseErrors] computes *)

Lemma assign_string o k m :
  assign (o, true) k (VStr m) = (set_prop o k (VStr m), true).
Proof.
  unfold assign, set_prop. destruct (k =? "__proto__")%string; reflexivity.
Qed.

Lemma forEach_errors errs ks acc :
  (forall k, In k ks -> In k (map fst errs)) ->
  forEach ks
    (fun fieldErrors errorKey =>
       bind (get (VObj (errors_object errs)) errorKey) (fun entry =>
       bind (get entry "path") (fun fullPath =>
       bind (fieldName_of fullPath) (fun fieldName =>
       bind (get (VObj (errors_object errs)) errorKey) (fun entry' =>
       bind (get entry' "message") (fun message =>
       Normal (assign fieldErrors fieldName message)))))))
    (acc, true)
  = Normal
      (assign_all
         (leaf_entries
            (flat_map (fun k => match lookup k errs with
                                | Some fe => [fe]
                                | None => []
                                end) ks))
         acc, true).
Proof.
  revert acc. induction ks as [|k t IH]; intros acc H; [reflexivity|].
  cbn [forEach flat_map].
  destruct (lookup_In k errs (H k (or_introl eq_refl))) as (fe & L).
  unfold get at 1 3. cbn [nullish prop]. rewrite lookup_errors_object, L.
  cbn [option_map bind]. unfold get at 1 2. cbn [nullish field_error_value prop lookup].
  cbn [String.eqb Ascii.eqb Bool.eqb bind].
  rewrite fieldName_of_path. cbn [bind]. rewrite assign_string.
  rewrite IH by (intros k' Hk'; apply H; now right).
  rewrite leaf_entries_app, assign_all_app. reflexivity.
Qed.

Lemma extractMongooseErrors_validation e errs :
  nullish e = false ->
  prop e "errors" = VObj (errors_object errs) ->
  extractMongooseErrors e
  = Normal (assign_all (leaf_entries (offending errs)) []).
Proof.
  intros N E. unfold extractMongooseErrors.
  rewrite (get_prop e "errors" N), E. cbn [bind ToBoolean Object_keys].
  rewrite keys_errors_object. unfold empty_object.
  rewrite (forEach_errors errs (OrdinaryOwnPropertyKeys errs) []).
  - reflexivity.
  - intros k. apply OrdinaryOwnPropertyKeys_In.
Qed.

Lemma offending_length errs : List.length (offending errs) = List.length errs.
Proof.
  rewrite <- (OrdinaryOwnPropertyKeys_length errs). unfold offending.
  assert (H : forall k, In k (OrdinaryOwnPropertyKeys errs) ->
                        In k (map fst errs))
    by (intros k; apply OrdinaryOwnPropertyKeys_In).
  induction (OrdinaryOwnPropertyKeys errs) as [|k t IH]; [reflexivity|].
  cbn [flat_map]. destruct (lookup_In k errs (H k (or_introl eq_refl))) as (fe & ->).
  cbn. f_equal. apply IH. intros k' Hk'. apply H. now right.
Qed.

(** ** Assignments to the [fieldErrors] object *)

Lemma replace_prop_keys k v o : map fst (replace_prop k v o) = map fst o.
Proof.
  induction o as [|[k' v'] t IH]; cbn; [reflexivity|].
  destruct (k =? k')%string; cbn; [reflexivity | now rewrite IH].
Qed.

Lemma set_prop_keys o k v :
  map fst (set_prop o k v)
  = if (k =? "__proto__")%string || has_own k o then map fst o
    else (map fst o ++ [k])%list.
Proof.
  unfold set_prop. destruct (k =? "__proto__")%string; [reflexivity|].
  cbn [orb]. destruct (has_own k o).
  - apply replace_prop_keys.
  - now rewrite map_app.
Qed.

Lemma set_prop_new o k v :
  k <> "__proto__" -> ~ In k (map fst o) -> set_prop o k v = (o ++ [(k, v)])%list.
Proof.
  intros P H. unfold set_prop.
  destruct (String.eqb_spec k "__proto__"); [contradiction|].
  destruct (has_own k o) eqn:E; [|reflexivity].
  apply has_own_In in E. contradiction.
Qed.

Lemma set_prop_In o k v x :
  In x (map fst (set_prop o k v))
  <-> In x (map fst o) \/ (x = k /\ k <> "__proto__").
Proof.
  rewrite set_prop_keys.
  destruct (String.eqb_spec k "__proto__") as [P|P]; cbn [orb].
  - intuition.
  - destruct (has_own k o) eqn:E.
    + apply has_own_In in E. intuition (subst; auto).
    + rewrite in_app_iff. cbn. intuition.
Qed.

Lemma set_prop_length o k v :
  (List.length (set_prop o k v) <= S (List.length o))%nat.
Proof.
  pose proof (f_equal (@List.length string) (set_prop_keys o k v)) as E.
  rewrite length_map in E. rewrite E.
  destruct ((k =? "__proto__")%string || has_own k o);
    rewrite ?length_app, length_map; cbn; lia.
Qed.

Lemma assign_all_cons k v t o :
  assign_all ((k, v) :: t) o = assign_all t (set_prop o k v).
Proof. reflexivity. Qed.

Lemma assign_all_In l o x :
  In x (map fst (assign_all l o))
  <-> In x (map fst o) \/ (In x (map fst l) /\ x <> "__proto__").
Proof.
  revert o. induction l as [|[k v] t IH]; intros o.
  - cbn. tauto.
  - rewrite assign_all_cons, IH, set_prop_In. cbn.
    intuition (subst; auto).
Qed.

Lemma assign_all_length l o :
  (List.length (assign_all l o) <= List.length o + List.length l)%nat.
Proof.
  revert o. induction l as [|[k v] t IH]; intros o.
  - cbn. lia.
  - rewrite assign_all_cons.
    pose proof (IH (set_prop o k v)). pose proof (set_prop_length o k v).
    cbn [List.length]. lia.
Qed.

(** Distinct new keys are added in the order of the assignments. *)
Lemma assign_all_fresh l o :
  NoDup (map fst l) -> ~ In "__proto__" (map fst l) ->
  (forall k, In k (map fst l) -> ~ In k (map fst o)) ->
  assign_all l o = (o ++ l)%list.
Proof.
  revert o. induction l as [|[k v] t IH]; intros o D P F.
  - cbn. now rewrite app_nil_r.
  - rewrite assign_all_cons. cbn [map fst snd] in *.
    inversion D as [|? ? Hk Dt]; subst.
    assert (Pk : k <> "__proto__") by (intros ->; apply P; now left).
    assert (Fk : ~ In k (map fst o)) by (apply F; now left).
    rewrite (set_prop_new o k v Pk Fk).
    rewrite IH.
    + now rewrite <- app_assoc.
    + exact Dt.
    + intros H. apply P. now right.
    + intros x Hx. rewrite map_app, in_app_iff. cbn.
      intros [H|[->|[]]]; [exact (F x (or_intror Hx) H) | contradiction].
Qed.

Lemma getFirstErrorMessage_plain k v t :
  (forall x, In x (map fst ((k, v) :: t)) -> is_array_index x = false) ->
  getFirstErrorMessage ((k, v) :: t) = v.
Proof.
  intros H. unfold getFirstErrorMessage, Object_values.
  rewrite (OrdinaryOwnPropertyKeys_plain _ H). cbn [map fst lookup].
  now rewrite String.eqb_refl.
Qed.

Lemma leaf_entries_keys l :
  map fst (leaf_entries l) = map (fun fe => leaf_segment (path fe)) l.
Proof. unfold leaf_entries. now rewrite map_map. Qed.

(** C3 as stated fails: two goals of a letter that both fail their
    validator have the paths [goals.0.text] and [goals.1.text], with the
    same leaf, so that the two offending fields give one entry in
    [fields], and the message is that of the second field. *)
Lemma validation_fields_counterexample :
  exists r fields,
    errorHandler (Some "production") two_goals_failure = Normal r
    /\ List.length (offending two_goals_errors) = 2%nat
    /\ fields_of r = VObj fields
    /\ List.length fields = 1%nat
    /\ message_of r = VStr "Goal cannot exceed 150 characters"
    /\ message_of r <> VStr "Goal text is required".
Proof.
  eexists. eexists. split; [vm_compute; reflexivity|].
  split; [reflexivity|]. split; [reflexivity|]. split; [reflexivity|].
  split; [reflexivity | discriminate].
Qed.

Lemma lookup_leaf_entries fe l :
  In fe l -> NoDup (map (fun x => leaf_segment (path x)) l) ->
  lookup (leaf_segment (path fe)) (leaf_entries l) = Some (VStr (message fe)).
Proof.
  induction l as [|a l IH]; [intros []|].
  cbn [leaf_entries map lookup]. fold (leaf_entries l).
  intros [->|I] D; inversion D as [|? ? Na Dl]; subst.
  - now rewrite String.eqb_refl.
  - destruct (String.eqb_spec (leaf_segment (path fe)) (leaf_segment (path a)))
      as [E|_]; [|now apply IH].
    exfalso. apply Na. rewrite <- E.
    exact (in_map (fun x => leaf_segment (path x)) l fe I).
Qed.

(** C3 (amended).  A storage validation failure with N offending field
    entries is answered with status 400 and code [VALIDATION_ERROR]; the
    keys of the [fields] object are the leaf segments of the offending
    paths, so that it has at most N entries, and exactly N, one per
    offending field, keyed by the leaf segment of its path and holding its
    message, when the leaf segments are pairwise distinct (and none is
    [__proto__]); the message is the first value of the [fields] object in
    the order of its keys, which is the order of iteration, and the
    message then that of the first offending field, when moreover no leaf
    segment is an array index; the message is "Validation failed" when
    there is no offending field. *)
Theorem validation_failure_response (env : option string) (e : value)
        (errs : list (string * FieldError)) :
  nullish e = false ->
  prop e "name" = VStr "ValidationError" ->
  prop e "errors" = VObj (errors_object errs) ->
  let leaves := map (fun fe => leaf_segment (path fe)) (offending errs) in
  exists fields,
    errorHandler env e
    = Normal {| status := VNum 400;
                json := VObj [ ("success", VBool false);
                               ("error",
                                VObj [ ("code", VStr "VALIDATION_ERROR");
                                       ("message", getFirstErrorMessage fields);
                                       ("fields", VObj fields) ]) ] |}
    /\ List.length (offending errs) = List.length errs
    /\ (List.length fields <= List.length errs)%nat
    /\ (forall k, has_own k fields = true <-> In k leaves /\ k <> "__proto__")
    /\ (NoDup leaves -> ~ In "__proto__" leaves ->
        List.length fields = List.length errs
        /\ forall fe, In fe (offending errs) ->
                      lookup (leaf_segment (path fe)) fields
                      = Some (VStr (message fe)))
    /\ (NoDup leaves -> ~ In "__proto__" leaves ->
        (forall k, In k leaves -> is_array_index k = false) ->
        OrdinaryOwnPropertyKeys fields = leaves
        /\ forall fe rest, offending errs = fe :: rest ->
                           getFirstErrorMessage fields = VStr (message fe))
    /\ (errs = [] -> getFirstErrorMessage fields = VStr "Validation failed").
Proof.
  intros N Hn He leaves.
  exists (assign_all (leaf_entries (offending errs)) []).
  assert (F : NoDup leaves -> ~ In "__proto__" leaves ->
              assign_all (leaf_entries (offending errs)) []
              = leaf_entries (offending errs)).
  { intros D P. apply assign_all_fresh; rewrite ?leaf_entries_keys; auto. }
  split; [|split; [|split; [|split; [|split; [|split]]]]].
  - rewrite (errorHandler_chain env e N). unfold is_validation.
    rewrite Hn, He. cbn [strict_equals ToBoolean andb].
    replace ("ValidationError" =? "ValidationError")%string with true
      by reflexivity.
    rewrite (extractMongooseErrors_validation e errs N He). reflexivity.
  - apply offending_length.
  - pose proof (assign_all_length (leaf_entries (offending errs)) []) as L.
    unfold leaf_entries in L at 2. rewrite length_map, offending_length in L.
    exact L.
  - intros k. rewrite has_own_In, assign_all_In, leaf_entries_keys. cbn.
    tauto.
  - intros D P. rewrite (F D P). split.
    + unfold leaf_entries. rewrite length_map. apply offending_length.
    + intros fe I. now apply lookup_leaf_entries.
  - intros D P I. rewrite (F D P).
    assert (K : forall x, In x (map fst (leaf_entries (offending errs))) ->
                          is_array_index x = false)
      by (intros x Hx; apply I; rewrite leaf_entries_keys in Hx; exact Hx).
    split.
    + rewrite (OrdinaryOwnPropertyKeys_plain _ K). apply leaf_entries_keys.
    + intros fe rest O. rewrite O in *. cbn [leaf_entries map] in *.
      now apply getFirstErrorMessage_plain.
  - intros ->. reflexivity.
Qed.

Lemma validation_failure_response_witness :
  exists fields,
    errorHandler (Some "production") letter_failure
    = Normal {| status := VNum 400;
                json := VObj [ ("success", VBool false);
                               ("error",
                                VObj [ ("code", VStr "VALIDATION_ERROR");
                                       ("message", getFirstErrorMessage fields);
                                       ("fields", VObj fields) ]) ] |}
    /\ List.length fields = List.length letter_failure_errors
    /\ getFirstErrorMessage fields
       = VStr "Reflection must be at least 50 characters long".
Proof.
  destruct (validation_failure_response (Some "production") letter_failure
              letter_failure_errors eq_refl eq_refl eq_refl)
    as (fields & R & _ & _ & _ & E & M & _).
  exists fields. split; [exact R|].
  assert (D : NoDup (map (fun fe => leaf_segment (path fe))
                         (offending letter_failure_errors))).
  { vm_compute. repeat constructor; cbn; intuition discriminate. }
  assert (P : ~ In "__proto__" (map (fun fe => leaf_segment (path fe))
                                    (offending letter_failure_errors))).
  { vm_compute. intuition discriminate. }
  assert (I : forall k,
             In k (map (fun fe => leaf_segment (path fe))
                       (offending letter_failure_errors)) ->
             is_array_index k = false).
  { intros k H. vm_compute in H.
    destruct H as [<-|[<-|[]]]; vm_compute; reflexivity. }
  split.
  - exact (proj1 (E D P)).
  - exact (proj2 (M D P I)
             {| path := "reflections.0.reflection";
                message := "Reflection must be at least 50 characters long" |}
             [ {| path := "content"; message := "Please write your letter" |} ]
             eq_refl).
Defined.


(* ================================================================== *)
(** * The async handler utility *)
(* ================================================================== *)

(** C5 as stated fails: a route handler that throws before it returns
    ends the wrapper with the same exception; the wrapper catches nothing
    and does not call [next]. *)
Lemma asyncHandler_counterexample :
  asyncHandler throwing_handler VUndefined VUndefined router_next
  = Throw (Thrown boom)
  /\ asyncHandler throwing_handler VUndefined VUndefined router_next
     <> Normal [Next boom].
Proof. split; [reflexivity | discriminate]. Qed.

(** C5 (amended).  When the promise returned by the route handler is
    rejected, the wrapper forwards the reason to [next] exactly once, and
    returns normally; when the route handler returns a plain value, a
    promise that is fulfilled or one that stays pending, [next] is not
    called; when the route handler throws before it returns, the exception
    leaves the wrapper, which forwards nothing. *)
Theorem asyncHandler_forwards_rejection
        (routeHandler : value -> value -> callback -> completion returned)
        (request response : value) (next : callback) :
  (forall reason,
      routeHandler request response next = Normal (Promise (Rejected reason)) ->
      asyncHandler routeHandler request response next = Normal (next reason))
  /\ (forall reason,
         routeHandler request response router_next
         = Normal (Promise (Rejected reason)) ->
         asyncHandler routeHandler request response router_next
         = Normal [Next reason])
  /\ (forall v,
         routeHandler request response next = Normal (Plain v)
         \/ routeHandler request response next = Normal (Promise (Fulfilled v))
         \/ routeHandler request response next = Normal (Promise Pending) ->
         asyncHandler routeHandler request response next = Normal [])
  /\ (forall x,
         routeHandler request response next = Throw x ->
         asyncHandler routeHandler request response next = Throw x
         /\ forall calls,
             asyncHandler routeHandler request response next <> Normal calls).
Proof.
  unfold asyncHandler. split; [|split; [|split]].
  - intros reason ->. reflexivity.
  - intros reason ->. reflexivity.
  - intros v [->|[->| ->]]; reflexivity.
  - intros x ->. split; [reflexivity | discriminate].
Qed.

Lemma asyncHandler_forwards_rejection_witness :
  asyncHandler rejecting_handler VUndefined VUndefined router_next
  = Normal [Next boom].
Proof.
  destruct (asyncHandler_forwards_rejection rejecting_handler VUndefined
              VUndefined router_next) as (_ & R & _).
  apply R. reflexivity.
Defined.

(* ================================================================== *)
(** * More on the [deliveredAt] validator *)
(* ================================================================== *)

Lemma YearFromTime_Day t t' : Day t = Day t' -> YearFromTime t = YearFromTime t'.
Proof. intros E. unfold YearFromTime. now rewrite E. Qed.

Lemma DayWithinYear_Day t t' :
  Day t = Day t' -> DayWithinYear t = DayWithinYear t'.
Proof.
  intros E. unfold DayWithinYear. now rewrite E, (YearFromTime_Day t t' E).
Qed.

Lemma InLeapYear_Day t t' : Day t = Day t' -> InLeapYear t = InLeapYear t'.
Proof. intros E. unfold InLeapYear. now rewrite (YearFromTime_Day t t' E). Qed.

Lemma MonthFromTime_Day t t' :
  Day t = Day t' -> MonthFromTime t = MonthFromTime t'.
Proof.
  intros E. unfold MonthFromTime.
  now rewrite (DayWithinYear_Day t t' E), (InLeapYear_Day t t' E).
Qed.

Lemma DateFromTime_Day t t' :
  Day t = Day t' -> DateFromTime t = DateFromTime t'.
Proof.
  intros E. unfold DateFromTime.
  now rewrite (DayWithinYear_Day t t' E), (InLeapYear_Day t t' E),
    (MonthFromTime_Day t t' E).
Qed.

Lemma Day_utc_midnight t : Day (utc_midnight t) = Day t.
Proof. unfold utc_midnight, Day, msPerDay. zdiv. Qed.

(** A year is determined by the days it contains. *)
Lemma YearFromTime_unique t y :
  DayFromYear y <= Day t < DayFromYear (y + 1) -> YearFromTime t = y.
Proof.
  intros H. pose proof (YearFromTime_spec t) as S.
  destruct (Z.lt_trichotomy (YearFromTime t) y) as [L|[E|G]]; [|exact E|].
  - pose proof (DayFromYear_mono (YearFromTime t + 1) y ltac:(lia)). lia.
  - pose proof (DayFromYear_mono (y + 1) (YearFromTime t) ltac:(lia)). lia.
Qed.

Lemma far_enough_Day now now' v v' :
  Day now = Day now' -> Day v = Day v' ->
  far_enough now v = far_enough now' v'.
Proof.
  intros En Ev. unfold far_enough, getUTCFullYear, getUTCMonth, getUTCDate.
  rewrite (YearFromTime_Day _ _ En), (MonthFromTime_Day _ _ En),
    (DateFromTime_Day _ _ En), (YearFromTime_Day _ _ Ev),
    (MonthFromTime_Day _ _ Ev), (DateFromTime_Day _ _ Ev).
  reflexivity.
Qed.

(** X1.  For valid dates the validator looks at the UTC days only: two
    clocks on the same UTC day and two valid candidate dates on the same
    UTC day get the same answer, whatever the times of day. *)
Theorem validator_ignores_time_of_day (this : Document) (now now' v v' : Z) :
  valid_time now -> valid_time now' -> valid_time v -> valid_time v' ->
  Day now = Day now' -> Day v = Day v' ->
  validator this now v = validator this now' v'.
Proof.
  intros Vn Vn' Vv Vv' En Ev.
  destruct (isNew this || isModified this "deliveredAt") eqn:G.
  - rewrite (validator_gate_open _ _ _ G Vn Vv),
      (validator_gate_open _ _ _ G Vn' Vv').
    now apply far_enough_Day.
  - unfold validator. rewrite G. reflexivity.
Qed.

(** 2 November 2026 at 05:58 and at 23:59:59.999, 9 November 2026 at 00:00
    and at 18:00. *)
Lemma validator_ignores_time_of_day_witness :
  validator new_letter 1793599080000 1794182400000
  = validator new_letter 1793663999999 1794247200000.
Proof.
  apply (validator_ignores_time_of_day new_letter);
    try (unfold valid_time, maxTime; lia); vm_compute; reflexivity.
Defined.

Lemma utc_midnight_mono a b : a <= b -> utc_midnight a <= utc_midnight b.
Proof. unfold utc_midnight, Day, msPerDay. intros. zdiv. Qed.

(** X2.  With the clock in the year 2000 or later, acceptance is monotone:
    a date accepted at some time stays accepted for every later candidate
    date and for every earlier clock (not before 2000). *)
Theorem validator_monotone (this : Document) (now now' d d' : Z) :
  isNew this || isModified this "deliveredAt" = true ->
  valid_time now -> valid_time now' -> valid_time d -> valid_time d' ->
  year2000 <= now -> now <= now' -> d <= d' ->
  validator this now' d = true -> validator this now d' = true.
Proof.
  intros G Vn Vn' Vd Vd' Y Ln Ld.
  rewrite (validator_gate_open _ _ _ G Vn' Vd),
    (validator_gate_open _ _ _ G Vn Vd').
  rewrite (far_enough_rule now' d Vn' Vd) by (right; lia).
  rewrite (far_enough_rule now d' Vn Vd') by (right; exact Y).
  rewrite !Z.leb_le.
  pose proof (utc_midnight_mono now now' Ln).
  pose proof (utc_midnight_mono d d' Ld). lia.
Qed.

(** Accepted on 2 November 2026 for 9 November, hence on 1 November for
    10 November. *)
Lemma validator_monotone_witness :
  validator new_letter 1793512680000 1794268800000 = true.
Proof.
  apply (validator_monotone new_letter 1793512680000 1793599080000
           1794182400000 1794268800000);
    try (unfold valid_time, maxTime, year2000; lia);
    vm_compute; reflexivity.
Defined.

(** X3.  With the clock in the year 2000 or later, a candidate date at
    least 7 times 24 hours after the current time is always accepted, and
    an accepted date is always more than 6 times 24 hours after it: between
    the two the answer depends on the times of day. *)
Theorem validator_elapsed_time_bounds (this : Document) (now d : Z) :
  isNew this || isModified this "deliveredAt" = true ->
  valid_time now -> valid_time d -> year2000 <= now ->
  (now + 7 * msPerDay <= d -> validator this now d = true)
  /\ (validator this now d = true -> now + 6 * msPerDay < d).
Proof.
  intros G Vn Vd Y. rewrite (validator_gate_open _ _ _ G Vn Vd).
  rewrite (far_enough_rule now d Vn Vd) by (right; exact Y).
  rewrite Z.leb_le. unfold utc_midnight, Day, msPerDay. split; intros; zdiv.
Qed.

(** At 23:59:59.999 on 2 November 2026 a date 6 days and 1 millisecond
    ahead is accepted. *)
Lemma validator_elapsed_time_bounds_witness :
  validator new_letter 1793663999999 (1793663999999 + 6 * msPerDay + 1) = true
  /\ 1793663999999 + 6 * msPerDay < 1793663999999 + 6 * msPerDay + 1.
Proof.
  assert (A : validator new_letter 1793663999999
                        (1793663999999 + 6 * msPerDay + 1) = true)
    by (vm_compute; reflexivity).
  split; [exact A|].
  refine (proj2 (validator_elapsed_time_bounds new_letter 1793663999999
                   (1793663999999 + 6 * msPerDay + 1) eq_refl _ _ _) A);
    unfold valid_time, maxTime, year2000, msPerDay; lia.
Defined.

(** X4.  Outside the years 0 to 99, the normalisation the validator applies
    to a date, [Date.UTC] of its UTC year, month and day, gives the start
    of the UTC day of that date: a multiple of a day, at most the date and
    less than a day before it, with the same year, month and day; and
    normalising twice is normalising once. *)
Theorem normalisation_round_trip (t : Z) :
  valid_time t -> ~ two_digit_year t ->
  exists x,
    Date_UTC (getUTCFullYear t) (getUTCMonth t) (getUTCDate t) = Some x
    /\ x mod msPerDay = 0
    /\ x <= t < x + msPerDay
    /\ getUTCFullYear x = getUTCFullYear t
    /\ getUTCMonth x = getUTCMonth t
    /\ getUTCDate x = getUTCDate t
    /\ Date_UTC (getUTCFullYear x) (getUTCMonth x) (getUTCDate x) = Some x.
Proof.
  intros V Y. exists (utc_midnight t).
  pose proof (Day_utc_midnight t) as D.
  assert (Ey : YearFromTime (utc_midnight t) = YearFromTime t)
    by (now apply YearFromTime_Day).
  split; [now apply Date_UTC_of_fields|].
  split; [unfold utc_midnight, Day, msPerDay; zdiv|].
  split; [unfold utc_midnight, Day, msPerDay; zdiv|].
  split; [exact Ey|].
  split; [now apply MonthFromTime_Day|].
  split; [now apply DateFromTime_Day|].
  rewrite Date_UTC_of_fields.
  - f_equal. unfold utc_midnight at 1. rewrite D. reflexivity.
  - now apply utc_midnight_valid.
  - unfold two_digit_year in *. now rewrite Ey.
Qed.

(** 2 November 2026, 05:58 UTC. *)
Lemma normalisation_round_trip_witness :
  exists x,
    Date_UTC (getUTCFullYear 1793599080000) (getUTCMonth 1793599080000)
             (getUTCDate 1793599080000) = Some x
    /\ x mod msPerDay = 0
    /\ x <= 1793599080000 < x + msPerDay.
Proof.
  destruct (normalisation_round_trip 1793599080000) as (x & E & M & B & _).
  - unfold valid_time, maxTime. lia.
  - apply year2000_not_two_digit. unfold year2000. lia.
  - exists x. auto.
Defined.

Lemma DaysInYear_two_digit y :
  1 <= y <= 99 -> DaysInYear (1900 + y) = DaysInYear y.
Proof.
  intros H. unfold DaysInYear.
  replace ((1900 + y) mod 4) with (y mod 4) by zdiv.
  replace ((1900 + y) mod 100) with (y mod 100) by zdiv.
  destruct (Z.eqb_spec (y mod 4) 0); cbn [negb]; [|reflexivity].
  destruct (Z.eqb_spec (y mod 100) 0) as [E|E]; cbn [negb]; [|reflexivity].
  exfalso. zdiv.
Qed.

(** X5.  A date in the years 1 to 99 is normalised to the same month and
    day of the year 1900 later: [Date.UTC] takes the year it is given for
    a two-digit year. *)
Theorem two_digit_year_shift (t : Z) :
  1 <= getUTCFullYear t <= 99 ->
  exists x,
    Date_UTC (getUTCFullYear t) (getUTCMonth t) (getUTCDate t) = Some x
    /\ getUTCFullYear x = 1900 + getUTCFullYear t
    /\ getUTCMonth x = getUTCMonth t
    /\ getUTCDate x = getUTCDate t.
Proof.
  unfold getUTCFullYear, getUTCMonth, getUTCDate. intros Y.
  set (y := YearFromTime t) in *.
  pose proof (month_date_DayWithinYear t) as E.
  pose proof (DayWithinYear_range t) as R. fold y in R.
  pose proof (DaysInYear_two_digit y Y) as L.
  pose proof (DayFromYear_succ (1900 + y)) as S.
  pose proof (DaysInYear_cases y) as C.
  pose proof (DayFromYear_mono 1900 (1900 + y) ltac:(lia)) as M1.
  pose proof (DayFromYear_mono (1900 + y + 1) 2000 ltac:(lia)) as M2.
  set (day := DayFromYear (1900 + y) + DayWithinYear t) in *.
  assert (Dx : Day (day * msPerDay) = day)
    by (unfold Day; apply Z.div_mul; discriminate).
  assert (Yx : YearFromTime (day * msPerDay) = 1900 + y)
    by (apply YearFromTime_unique; rewrite Dx; unfold day; lia).
  assert (Wx : DayWithinYear (day * msPerDay) = DayWithinYear t)
    by (unfold DayWithinYear at 1; rewrite Dx, Yx; unfold day; lia).
  assert (Lx : InLeapYear (day * msPerDay) = InLeapYear t)
    by (unfold InLeapYear; rewrite Yx; fold y; now rewrite L).
  assert (Mx : MonthFromTime (day * msPerDay) = MonthFromTime t)
    by (unfold MonthFromTime; now rewrite Wx, Lx).
  exists (day * msPerDay). split; [|split; [exact Yx|split; [exact Mx|]]].
  - unfold Date_UTC, MakeFullYear.
    replace ((0 <=? y) && (y <=? 99)) with true
      by (symmetry; apply andb_true_iff; rewrite !Z.leb_le; lia).
    rewrite MakeDay_month by apply MonthFromTime_range.
    rewrite L.
    change (if DaysInYear y =? 366 then 1 else 0) with (InLeapYear t).
    replace (DayFromYear (1900 + y) + monthStart (MonthFromTime t) (InLeapYear t)
             + DateFromTime t - 1) with day by (unfold day; lia).
    unfold MakeDate. rewrite Z.add_0_r. apply TimeClip_valid.
    change (DayFromYear 1900) with (-25567) in M1.
    change (DayFromYear 2000) with 10957 in M2.
    unfold valid_time, maxTime, msPerDay. unfold day. lia.
  - unfold DateFromTime. now rewrite Wx, Lx, Mx.
Qed.

(** 31 December of the year 99 becomes 31 December 1999. *)
Lemma two_digit_year_shift_witness :
  exists x,
    Date_UTC (getUTCFullYear (-59011545600000)) (getUTCMonth (-59011545600000))
             (getUTCDate (-59011545600000)) = Some x
    /\ getUTCFullYear x = 1900 + getUTCFullYear (-59011545600000).
Proof.
  destruct (two_digit_year_shift (-59011545600000)) as (x & E & Y & _).
  - vm_compute. split; discriminate.
  - exists x. auto.
Defined.

(* ================================================================== *)
(** * More on the error classes and the handler *)
(* ================================================================== *)

Import Describe.

(** X6.  An error of the classes [NotFoundError], [ForbiddenError],
    [UnauthorizedError] or of the base class [AppError] is answered, in
    every mode, with its status code and a body that holds its code
    ([ERROR] for the base class) and its message (the default one of the
    class when none was given) and nothing else: no fields, no stack. *)
Theorem taxonomy_errors_answered_exactly
        (env : option string) (stack : string) (msg : option string)
        (statusCode : option Z) :
  errorHandler env (NotFoundError stack msg)
  = Normal {| status := VNum 404;
              json := plain_body "NOT_FOUND"
                        (or_default msg "Resource not found") |}
  /\ errorHandler env (ForbiddenError stack msg)
     = Normal {| status := VNum 403;
                 json := plain_body "FORBIDDEN"
                           (or_default msg
                              "You do not have permission to perform this action") |}
  /\ errorHandler env (UnauthorizedError stack msg)
     = Normal {| status := VNum 401;
                 json := plain_body "UNAUTHORIZED"
                           (or_default msg "Authentication required") |}
  /\ errorHandler env (AppError stack msg statusCode)
     = Normal {| status := VNum (match statusCode with
                                 | Some c => c
                                 | None => 400
                                 end);
                 json := plain_body "ERROR" (or_default msg "") |}.
Proof. destruct msg; repeat split. Qed.

(** X7.  An [AIServiceError] records the failure of the provider, its
    status and its message, when one is given; the response holds none of
    them: it is the status 503 with the code and the message of the error,
    whatever the provider's failure. *)
Theorem provider_details_are_not_sent
        (env : option string) (stack : string) (msg : option string)
        (originalError : value) :
  errorHandler env (AIServiceError stack msg originalError)
  = Normal {| status := VNum 503;
              json := plain_body "AI_SERVICE_ERROR"
                        (or_default msg "AI service encountered an error") |}
  /\ (ToBoolean originalError = true ->
      prop (AIServiceError stack msg originalError) "originalError"
      = originalError
      /\ prop (AIServiceError stack msg originalError) "providerStatus"
         = prop originalError "status"
      /\ prop (AIServiceError stack msg originalError) "providerMessage"
         = prop originalError "message")
  /\ (ToBoolean originalError = false ->
      has_field "providerStatus" (AIServiceError stack msg originalError)
      = false
      /\ has_field "providerMessage" (AIServiceError stack msg originalError)
         = false).
Proof.
  split; [|split].
  - rewrite errorHandler_chain by reflexivity.
    unfold AIServiceError.
    destruct (ToBoolean match originalError with
                        | VUndefined => VNull
                        | _ => originalError
                        end); destruct msg; reflexivity.
  - intros T. unfold AIServiceError.
    destruct originalError; try discriminate T; cbn in T |- *;
      rewrite ?T; repeat split.
  - intros T. unfold AIServiceError.
    destruct originalError; try discriminate T; cbn in T |- *;
      rewrite ?T; repeat split.
Qed.

Lemma provider_details_are_not_sent_witness :
  prop (AIServiceError "Error: quota" None
          (VObj [ ("status", VNum 429); ("message", VStr "quota exceeded") ]))
       "providerMessage"
  = VStr "quota exceeded".
Proof.
  destruct (provider_details_are_not_sent None "Error: quota" None
              (VObj [ ("status", VNum 429);
                      ("message", VStr "quota exceeded") ]))
    as (_ & T & _).
  exact (proj2 (proj2 (T eq_refl))).
Defined.

(** X8.  An error of the class [ValidationError] is answered with the
    status 400, the code [VALIDATION_ERROR] and its message; the field
    errors it was given are passed as they are when they are truthy, and
    the body has no fields entry when they are not (absent, [null]). *)
Theorem validation_class_passes_fields
        (env : option string) (stack : string) (msg : option string)
        (fieldErrors : value) :
  (ToBoolean fieldErrors = true ->
   errorHandler env (ValidationError stack msg fieldErrors)
   = Normal {| status := VNum 400;
               json := VObj [ ("success", VBool false);
                              ("error",
                               VObj [ ("code", VStr "VALIDATION_ERROR");
                                      ("message", VStr (or_default msg ""));
                                      ("fields", fieldErrors) ]) ] |})
  /\ (ToBoolean fieldErrors = false ->
      errorHandler env (ValidationError stack msg fieldErrors)
      = Normal {| status := VNum 400;
                  json := plain_body "VALIDATION_ERROR" (or_default msg "") |}).
Proof.
  split; intros T; rewrite errorHandler_chain by reflexivity;
    destruct fieldErrors; try discriminate T; destruct msg;
      cbn in T |- *; unfold operational_response; cbn; rewrite ?T;
        reflexivity.
Qed.

Lemma validation_class_passes_fields_witness :
  errorHandler (Some "production")
    (ValidationError "Error" (Some "Too many goals")
       (VObj [ ("goals", VStr "At most 3 goals") ]))
  = Normal {| status := VNum 400;
              json := VObj [ ("success", VBool false);
                             ("error",
                              VObj [ ("code", VStr "VALIDATION_ERROR");
                                     ("message", VStr "Too many goals");
                                     ("fields",
                                      VObj [ ("goals",
                                              VStr "At most 3 goals") ]) ]) ] |}.
Proof.
  destruct (validation_class_passes_fields (Some "production") "Error"
              (Some "Too many goals")
              (VObj [ ("goals", VStr "At most 3 goals") ])) as (T & _).
  exact (T eq_refl).
Defined.

(** ** When the handler itself raises *)

Lemma forEach_throws_TypeError {S} (ks : list string)
      (body : S -> string -> completion S) (s : S) x :
  (forall s' k y, body s' k = Throw y -> y = TypeError) ->
  forEach ks body s = Throw x -> x = TypeError.
Proof.
  intros B. revert s. induction ks as [|k t IH]; intros s; cbn [forEach].
  - discriminate.
  - destruct (body s k) as [s'|y] eqn:E; cbn [bind].
    + apply IH.
    + intros H. injection H as <-. exact (B s k y E).
Qed.

Lemma get_throws_TypeError v k x : get v k = Throw x -> x = TypeError.
Proof. unfold get. destruct (nullish v); congruence. Qed.

Lemma Object_keys_throws_TypeError v x :
  Object_keys v = Throw x -> x = TypeError.
Proof. destruct v; cbn; congruence. Qed.

Lemma Object_keys_total v :
  nullish v = false -> exists ks, Object_keys v = Normal ks.
Proof. destruct v; cbn; try discriminate; eauto. Qed.

Lemma fieldName_of_throws_TypeError v x :
  fieldName_of v = Throw x -> x = TypeError.
Proof. destruct v; cbn; congruence. Qed.

Lemma extract_step_throws_TypeError errors (s : object) k y :
  bind (get errors k) (fun entry =>
  bind (get entry "path") (fun fullPath =>
  bind (fieldName_of fullPath) (fun fieldName =>
  bind (get errors k) (fun entry' =>
  bind (get entry' "message") (fun message =>
  Normal (assign s fieldName message)))))) = Throw y ->
  y = TypeError.
Proof.
  destruct (get errors k) as [entry|z] eqn:G1; cbn [bind];
    [|intros H; injection H as <-; exact (get_throws_TypeError _ _ _ G1)].
  destruct (get entry "path") as [p|z] eqn:G2; cbn [bind];
    [|intros H; injection H as <-; exact (get_throws_TypeError _ _ _ G2)].
  destruct (fieldName_of p) as [n|z] eqn:F; cbn [bind];
    [|intros H; injection H as <-; exact (fieldName_of_throws_TypeError _ _ F)].
  destruct (get entry "message") as [m|z] eqn:G3; cbn [bind];
    [discriminate|].
  intros H; injection H as <-; exact (get_throws_TypeError _ _ _ G3).
Qed.

Lemma extractMongooseErrors_throws_TypeError e x :
  extractMongooseErrors e = Throw x -> x = TypeError.
Proof.
  unfold extractMongooseErrors.
  destruct (get e "errors") as [errors|y] eqn:G; cbn [bind];
    [|intros H; injection H as <-; exact (get_throws_TypeError _ _ _ G)].
  destruct (ToBoolean errors); [|discriminate].
  destruct (Object_keys errors) as [ks|y] eqn:K; cbn [bind];
    [|intros H; injection H as <-; exact (Object_keys_throws_TypeError _ _ K)].
  match goal with
  | |- bind ?c _ = _ -> _ => destruct c as [o|y] eqn:F
  end; cbn [bind]; [discriminate|].
  intros H. injection H as <-.
  apply (forEach_throws_TypeError _ _ _ _ (extract_step_throws_TypeError errors) F).
Qed.

(** X9.  The handler raises nothing but a [TypeError], and only for a
    failure that is [undefined] or [null], for a storage validation
    failure (an entry of which has no usable path), or for a duplicate-key
    failure without [keyValue]; for every other failure (cast failure,
    duplicate key with a [keyValue], operational error, anything else) it
    produces a response. *)
Theorem handler_raises_only (env : option string) (e : value) :
  (forall x, errorHandler env e = Throw x ->
     x = TypeError
     /\ (nullish e = true
         \/ is_validation e = true
         \/ (is_validation e = false /\ is_cast e = false
             /\ is_duplicate e = true
             /\ nullish (prop e "keyValue") = true)))
  /\ (nullish e = false -> is_validation e = false ->
      is_cast e = true \/ is_duplicate e = false
      \/ nullish (prop e "keyValue") = false ->
      exists r, errorHandler env e = Normal r).
Proof.
  destruct (nullish e) eqn:N.
  { split; [|discriminate]. intros x H.
    rewrite (errorHandler_nullish env e N) in H. injection H as <-. auto. }
  rewrite (errorHandler_chain env e N). split.
  - intros x. destruct (is_validation e) eqn:V.
    { destruct (extractMongooseErrors e) as [f|y] eqn:X; cbn [bind];
        [discriminate|].
      intros H. injection H as <-.
      split; [exact (extractMongooseErrors_throws_TypeError e y X) | auto]. }
    destruct (is_cast e) eqn:C; [discriminate|].
    destruct (is_duplicate e) eqn:D.
    2:{ destruct (is_operational e); discriminate. }
    destruct (Object_keys (prop e "keyValue")) as [ks|y] eqn:K; cbn [bind];
      [discriminate|].
    intros H. injection H as <-.
    split; [exact (Object_keys_throws_TypeError _ _ K)|].
    right. right. repeat split.
    destruct (nullish (prop e "keyValue")) eqn:NK; [reflexivity|].
    destruct (Object_keys_total _ NK) as (ks & E). congruence.
  - intros _ V H. rewrite V.
    destruct (is_cast e) eqn:C; [eauto|].
    destruct (is_duplicate e) eqn:D.
    2:{ destruct (is_operational e); eauto. }
    destruct H as [H|[H|H]]; try discriminate H.
    destruct (Object_keys_total _ H) as (ks & ->). cbn [bind]. eauto.
Qed.

Lemma handler_raises_only_witness :
  exists r, errorHandler (Some "production") duplicate_email = Normal r.
Proof.
  destruct (handler_raises_only (Some "production") duplicate_email)
    as (_ & T).
  apply T; [reflexivity | reflexivity | right; right; reflexivity].
Defined.



(** X11.  A thrown string, number or boolean is an unclassified failure:
    it is answered with the status 500 and the code [INTERNAL_ERROR], and
    since a primitive has neither message nor stack, the message and the
    stack of the development body are [undefined]: the text of a thrown
    string is not shown in any mode. *)
Theorem thrown_primitive_is_internal (env : option string) (e : value) :
  primitive e = true ->
  unclassified e
  /\ errorHandler env e
     = Normal {| status := VNum 500;
                 json := VObj [ ("success", VBool false);
                                ("error",
                                 VObj (if isDevelopment env
                                       then [ ("code", VStr "INTERNAL_ERROR");
                                              ("message", VUndefined);
                                              ("stack", VUndefined) ]
                                       else [ ("code", VStr "INTERNAL_ERROR");
                                              ("message",
                                               VStr "An unexpected error occurred") ])) ] |}.
Proof.
  intros P.
  assert (U : unclassified e)
    by (destruct e; try discriminate P; repeat split).
  split; [exact U|]. destruct U as (N & V & C & D & O).
  rewrite (errorHandler_chain env e N), V, C, D, O.
  unfold internal_response, error_body.
  destruct e; try discriminate P; destruct (isDevelopment env); reflexivity.
Qed.

Lemma thrown_primitive_is_internal_witness :
  unclassified (VStr "boom")
  /\ errorHandler (Some "development") (VStr "boom")
     = Normal {| status := VNum 500;
                 json := VObj [ ("success", VBool false);
                                ("error",
                                 VObj [ ("code", VStr "INTERNAL_ERROR");
                                        ("message", VUndefined);
                                        ("stack", VUndefined) ]) ] |}.
Proof.
  exact (thrown_primitive_is_internal (Some "development") (VStr "boom")
           eq_refl).
Defined.

(** X12.  A duplicate-key failure whose [keyValue] has no key (an empty
    object, a number, a boolean) is answered as a conflict on the field
    named "undefined". *)
Theorem duplicate_without_key_names_undefined (env : option string) (e : value) :
  nullish e = false -> is_validation e = false -> is_cast e = false ->
  is_duplicate e = true ->
  prop e "keyValue" = VObj []
  \/ (exists n, prop e "keyValue" = VNum n)
  \/ (exists b, prop e "keyValue" = VBool b) ->
  errorHandler env e
  = Normal {| status := VNum 400;
              json := VObj [ ("success", VBool false);
                             ("error",
                              VObj [ ("code", VStr "DUPLICATE_ERROR");
                                     ("message",
                                      VStr "A record with this undefined already exists");
                                     ("fields",
                                      VObj [ ("undefined",
                                              VStr "This undefined is already in use") ]) ]) ] |}.
Proof.
  intros N V C D K. rewrite (errorHandler_chain env e N), V, C, D.
  destruct K as [->|[(n & ->)|(b & ->)]]; reflexivity.
Qed.

Lemma duplicate_without_key_names_undefined_witness :
  errorHandler None duplicate_empty
  = Normal {| status := VNum 400;
              json := VObj [ ("success", VBool false);
                             ("error",
                              VObj [ ("code", VStr "DUPLICATE_ERROR");
                                     ("message",
                                      VStr "A record with this undefined already exists");
                                     ("fields",
                                      VObj [ ("undefined",
                                              VStr "This undefined is already in use") ]) ]) ] |}.
Proof.
  apply (duplicate_without_key_names_undefined None duplicate_empty);
    try reflexivity.
  left. reflexivity.
Defined.

(** X13.  Of the keys of a compound unique index only the first is
    reported: when no key of [keyValue] is an array index, the response
    names the key that was created first and ignores the others. *)
Theorem duplicate_reports_first_key_only
        (env : option string) (e : value) (k : string) (v : value)
        (rest : list (string * value)) :
  nullish e = false -> is_validation e = false -> is_cast e = false ->
  is_duplicate e = true ->
  prop e "keyValue" = VObj ((k, v) :: rest) ->
  (forall x, In x (map fst ((k, v) :: rest)) -> is_array_index x = false) ->
  errorHandler env e = Normal (duplicate_response k).
Proof.
  intros N V C D K I. rewrite (errorHandler_chain env e N), V, C, D, K.
  cbn [Object_keys bind]. rewrite (OrdinaryOwnPropertyKeys_plain _ I).
  reflexivity.
Qed.

Lemma duplicate_reports_first_key_only_witness :
  errorHandler (Some "production") duplicate_title
  = Normal (duplicate_response "user").
Proof.
  apply (duplicate_reports_first_key_only (Some "production") duplicate_title
           "user" (VStr "6561") [ ("title", VStr "Hello") ]);
    try reflexivity.
  intros x H. vm_compute in H.
  destruct H as [<-|[<-|[]]]; vm_compute; reflexivity.
Defined.

(** X17.  A failure named [ValidationError] whose [errors] holds no
    entry (an empty object, a number other than zero, [true]) is answered
    with the status 400, the code [VALIDATION_ERROR], the message
    "Validation failed" and an empty fields object. *)
Theorem validation_without_entries (env : option string) (e : value) :
  nullish e = false ->
  prop e "name" = VStr "ValidationError" ->
  prop e "errors" = VObj [] \/ prop e "errors" = VBool true
  \/ (exists n, n <> 0 /\ prop e "errors" = VNum n) ->
  errorHandler env e
  = Normal {| status := VNum 400;
              json := VObj [ ("success", VBool false);
                             ("error",
                              VObj [ ("code", VStr "VALIDATION_ERROR");
                                     ("message", VStr "Validation failed");
                                     ("fields", VObj []) ]) ] |}.
Proof.
  intros N Hn He.
  assert (V : is_validation e = true).
  { unfold is_validation. rewrite Hn.
    destruct He as [->|[->|(n & Hz & ->)]]; try reflexivity.
    cbn. apply Z.eqb_neq in Hz. now rewrite Hz. }
  assert (X : extractMongooseErrors e = Normal []).
  { unfold extractMongooseErrors. rewrite (get_prop e "errors" N).
    destruct He as [->|[->|(n & Hz & ->)]]; try reflexivity.
    cbn. apply Z.eqb_neq in Hz. now rewrite Hz. }
  rewrite (errorHandler_chain env e N), V, X. reflexivity.
Qed.

Lemma validation_without_entries_witness :
  errorHandler (Some "production") flagged_failure
  = Normal {| status := VNum 400;
              json := VObj [ ("success", VBool false);
                             ("error",
                              VObj [ ("code", VStr "VALIDATION_ERROR");
                                     ("message", VStr "Validation failed");
                                     ("fields", VObj []) ]) ] |}.
Proof.
  apply (validation_without_entries (Some "production") flagged_failure);
    try reflexivity.
  right. left. reflexivity.
Defined.

(* ================================================================== *)
(** * More on [extractMongooseErrors] and [getFirstErrorMessage] *)
(* ================================================================== *)

Lemma fieldName_of_Normal v n :
  fieldName_of v = Normal n -> exists p, v = VStr p /\ n = leaf_segment p.
Proof.
  destruct v; try discriminate. cbn [fieldName_of].
  rewrite pop_split_leaf. intros H. injection H as <-. eauto.
Qed.

Lemma forEach_invariant {S} (P : S -> Prop) (ks : list string)
      (body : S -> string -> completion S) (s s' : S) :
  (forall a k b, P a -> body a k = Normal b -> P b) ->
  P s -> forEach ks body s = Normal s' -> P s'.
Proof.
  intros B. revert s. induction ks as [|k t IH]; intros s Hs; cbn [forEach].
  - intros H. injection H as <-. exact Hs.
  - destruct (body s k) as [b|y] eqn:E; cbn [bind]; [|discriminate].
    apply IH. exact (B s k b Hs E).
Qed.

Lemma define_prop_In props k v x :
  In x (map fst (define_prop props k v)) -> In x (map fst props) \/ x = k.
Proof.
  unfold define_prop. destruct (has_own k props).
  - rewrite replace_prop_keys. auto.
  - rewrite map_app, in_app_iff. cbn. intuition.
Qed.

Lemma assign_In o k v x :
  In x (map fst (own_properties (assign o k v))) ->
  In x (map fst (own_properties o)) \/ x = k.
Proof.
  destruct o as [props reached]. unfold assign, own_properties.
  destruct (k =? "__proto__")%string.
  - destruct reached; cbn [fst]; [auto | apply define_prop_In].
  - cbn [fst]. intros H. apply set_prop_In in H. intuition.
Qed.

(** Whatever the failure, the names in the result are leaf segments. *)
Lemma extract_keys_no_dot (e : value) (f : list (string * value)) :
  extractMongooseErrors e = Normal f ->
  forall k, In k (map fst f) -> includes k "." = false.
Proof.
  unfold extractMongooseErrors.
  destruct (get e "errors") as [errors|y]; cbn [bind]; [|discriminate].
  destruct (ToBoolean errors).
  2:{ intros H. injection H as <-. intros k []. }
  destruct (Object_keys errors) as [ks|y]; cbn [bind]; [|discriminate].
  match goal with
  | |- bind ?c _ = _ -> _ => destruct c as [o|y] eqn:F
  end; cbn [bind]; [|discriminate].
  intros H. injection H as <-. revert F.
  apply (forEach_invariant
           (fun o => forall k, In k (map fst (own_properties o)) ->
                               includes k "." = false)).
  - intros a k b Ha.
    destruct (get errors k) as [entry|z]; cbn [bind]; [|discriminate].
    destruct (get entry "path") as [p|z]; cbn [bind]; [|discriminate].
    destruct (fieldName_of p) as [n|z] eqn:F; cbn [bind]; [|discriminate].
    destruct (get entry "message") as [m|z]; cbn [bind]; [|discriminate].
    intros H. injection H as <-. intros x Hx.
    apply assign_In in Hx. destruct Hx as [Hx| ->]; [now apply Ha|].
    destruct (fieldName_of_Normal p n F) as (q & _ & ->).
    apply leaf_segment_no_dot.
  - intros k [].
Qed.

Lemma forEach_total {S} (ks : list string)
      (body : S -> string -> completion S) :
  (forall s k, In k ks -> exists s', body s k = Normal s') ->
  forall s, exists s', forEach ks body s = Normal s'.
Proof.
  induction ks as [|k t IH]; intros B s; cbn [forEach]; [eauto|].
  destruct (B s k (or_introl eq_refl)) as (s1 & ->). cbn [bind].
  apply IH. intros s2 k' Hk'. apply B. now right.
Qed.

(** X14.  For a failure whose [errors] object has only entries with a
    string [path] (whatever their messages), [extractMongooseErrors]
    returns, and no key of the object it returns contains a dot. *)
Theorem extracted_names_have_no_dot
        (e : value) (props : list (string * value)) :
  nullish e = false ->
  prop e "errors" = VObj props ->
  (forall k, In k (map fst props) ->
             exists p, prop (prop (VObj props) k) "path" = VStr p) ->
  exists f,
    extractMongooseErrors e = Normal f
    /\ forall k, In k (map fst f) -> includes k "." = false.
Proof.
  intros N E Hp.
  assert (T : exists f, extractMongooseErrors e = Normal f).
  { unfold extractMongooseErrors. rewrite (get_prop e "errors" N), E.
    cbn [bind ToBoolean Object_keys].
    match goal with
    | |- exists f, bind (forEach ?ks ?body ?s0) _ = _ =>
        assert (B : forall s k, In k ks -> exists s', body s k = Normal s');
        [|destruct (forEach_total ks body B s0) as (o & ->);
          cbn [bind]; eauto]
    end.
    intros s k Hk. apply OrdinaryOwnPropertyKeys_In in Hk.
    destruct (Hp k Hk) as (p & P).
    unfold get at 1 3. cbn [nullish bind].
    assert (Ne : nullish (prop (VObj props) k) = false)
      by (destruct (prop (VObj props) k); try reflexivity; discriminate P).
    rewrite !(get_prop _ _ Ne), P. cbn [bind fieldName_of]. eauto. }
  destruct T as (f & X). exists f. split; [exact X|].
  exact (extract_keys_no_dot e f X).
Qed.

Lemma extracted_names_have_no_dot_witness :
  exists f,
    extractMongooseErrors letter_failure = Normal f
    /\ forall k, In k (map fst f) -> includes k "." = false.
Proof.
  apply (extracted_names_have_no_dot letter_failure
           (errors_object letter_failure_errors)); try reflexivity.
  intros k H. vm_compute in H.
  destruct H as [<-|[<-|[]]]; eexists; vm_compute; reflexivity.
Defined.

(** ** Fields that share a leaf *)

Lemma lookup_app {V} k (a b : list (string * V)) :
  lookup k (a ++ b)
  = match lookup k a with Some v => Some v | None => lookup k b end.
Proof.
  induction a as [|[k' v] t IH]; cbn; [reflexivity|].
  destruct (k =? k')%string; [reflexivity | exact IH].
Qed.

Lemma lookup_replace_prop k k' v o :
  lookup k (replace_prop k' v o)
  = if (k =? k')%string
    then match lookup k o with Some _ => Some v | None => None end
    else lookup k o.
Proof.
  induction o as [|[k0 v0] t IH]; cbn.
  - destruct (k =? k')%string; reflexivity.
  - destruct (String.eqb_spec k' k0) as [->|N0]; cbn.
    + destruct (k =? k0)%string; reflexivity.
    + destruct (String.eqb_spec k k0) as [->|N1].
      * destruct (String.eqb_spec k0 k'); [congruence | reflexivity].
      * exact IH.
Qed.

Lemma lookup_set_prop k k' v o :
  k' <> "__proto__" ->
  lookup k (set_prop o k' v) = if (k =? k')%string then Some v else lookup k o.
Proof.
  intros P. unfold set_prop.
  destruct (String.eqb_spec k' "__proto__"); [contradiction|].
  unfold has_own. destruct (lookup k' o) eqn:L.
  - rewrite lookup_replace_prop.
    destruct (String.eqb_spec k k') as [->|]; [now rewrite L | reflexivity].
  - rewrite lookup_app. cbn.
    destruct (String.eqb_spec k k') as [->|]; [now rewrite L|].
    destruct (lookup k o); reflexivity.
Qed.

Lemma lookup_assign_all k l o :
  k <> "__proto__" ->
  lookup k (assign_all l o)
  = match last_assigned k l with Some v => Some v | None => lookup k o end.
Proof.
  intros P. revert o. induction l as [|[k' v] t IH]; intros o;
    [reflexivity|].
  rewrite assign_all_cons, IH. cbn [last_assigned].
  destruct (last_assigned k t); [reflexivity|].
  destruct (String.eqb_spec k' "__proto__") as [->|P'].
  - unfold set_prop. cbn.
    destruct (String.eqb_spec k "__proto__"); [contradiction | reflexivity].
  - rewrite (lookup_set_prop k k' v o P').
    destruct (k =? k')%string; reflexivity.
Qed.

Lemma last_assigned_leaf_entries k l :
  last_assigned k (leaf_entries l)
  = option_map (fun fe => VStr (message fe)) (last_with_leaf k l).
Proof.
  induction l as [|fe t IH]; [reflexivity|].
  cbn [leaf_entries map last_assigned last_with_leaf].
  fold (leaf_entries t). rewrite IH.
  destruct (last_with_leaf k t); cbn [option_map]; [reflexivity|].
  destruct (k =? leaf_segment (path fe))%string; reflexivity.
Qed.

(** X15.  When several offending fields of a storage validation failure
    have the same leaf, the last one in the order of iteration wins: each
    field name is mapped to the message of the last offending field with
    that leaf, and a name that is the leaf of no offending field is not
    in the object. *)
Theorem colliding_fields_keep_last_message
        (e : value) (errs : list (string * FieldError)) :
  nullish e = false ->
  prop e "errors" = VObj (errors_object errs) ->
  exists f,
    extractMongooseErrors e = Normal f
    /\ forall k, k <> "__proto__" ->
                 lookup k f
                 = option_map (fun fe => VStr (message fe))
                              (last_with_leaf k (offending errs)).
Proof.
  intros N E. exists (assign_all (leaf_entries (offending errs)) []).
  split; [now apply extractMongooseErrors_validation|].
  intros k P. rewrite (lookup_assign_all k _ [] P), last_assigned_leaf_entries.
  destruct (last_with_leaf k (offending errs)); reflexivity.
Qed.

Lemma colliding_fields_keep_last_message_witness :
  exists f,
    extractMongooseErrors two_goals_failure = Normal f
    /\ lookup "text" f = Some (VStr "Goal cannot exceed 150 characters").
Proof.
  destruct (colliding_fields_keep_last_message two_goals_failure
              two_goals_errors eq_refl eq_refl) as (f & X & L).
  exists f. split; [exact X|].
  rewrite (L "text") by discriminate. reflexivity.
Defined.

(** ** Entries without a path *)

Lemma forEach_throws {S} (ks : list string)
      (body : S -> string -> completion S) (k : string) :
  In k ks ->
  (forall s, body s k = Throw TypeError) ->
  (forall s k' y, body s k' = Throw y -> y = TypeError) ->
  forall s, forEach ks body s = Throw TypeError.
Proof.
  intros I T B. induction ks as [|h t IH]; [destruct I|].
  intros s. cbn [forEach].
  destruct (body s h) as [s'|y] eqn:E; cbn [bind].
  - destruct I as [->|I]; [rewrite T in E; discriminate | now apply IH].
  - now rewrite (B s h y E).
Qed.

(** X16.  A storage validation failure with an entry whose [path] is not
    a string (an entry without a path, or no entry at all under a key)
    makes the handler raise a [TypeError] in place of a response, whatever
    the other entries are. *)
Theorem entry_without_path_raises
        (env : option string) (e : value) (props : list (string * value))
        (k : string) :
  nullish e = false ->
  prop e "name" = VStr "ValidationError" ->
  prop e "errors" = VObj props ->
  In k (map fst props) ->
  (forall p, prop (prop (VObj props) k) "path" <> VStr p) ->
  extractMongooseErrors e = Throw TypeError
  /\ errorHandler env e = Throw TypeError.
Proof.
  intros N Hn He I Hp.
  assert (X : extractMongooseErrors e = Throw TypeError).
  { unfold extractMongooseErrors. rewrite (get_prop e "errors" N), He.
    cbn [bind ToBoolean Object_keys].
    rewrite (forEach_throws _ _ k); [reflexivity | | |].
    - now apply OrdinaryOwnPropertyKeys_In.
    - intros s. unfold get at 1. cbn [nullish bind].
      unfold get at 1.
      destruct (nullish (prop (VObj props) k)) eqn:Ne; [reflexivity|].
      cbn [bind].
      destruct (prop (prop (VObj props) k) "path") as [| | | |q|] eqn:Pp;
        try reflexivity.
      exfalso. exact (Hp q eq_refl).
    - intros s k' y. apply extract_step_throws_TypeError. }
  split; [exact X|].
  rewrite (errorHandler_chain env e N). unfold is_validation.
  rewrite Hn, He, X. reflexivity.
Qed.

Lemma entry_without_path_raises_witness :
  extractMongooseErrors pathless_failure = Throw TypeError
  /\ errorHandler (Some "production") pathless_failure = Throw TypeError.
Proof.
  apply (entry_without_path_raises (Some "production") pathless_failure
           [ ("content",
              VObj [ ("path", VStr "content");
                     ("message", VStr "Letter content is required") ]);
             ("goals", VObj [ ("message", VStr "Validation failed") ]) ]
           "goals"); try reflexivity.
  - right. left. reflexivity.
  - intros p. discriminate.
Defined.

(** X18.  [getFirstErrorMessage] gives "Validation failed" for an object
    without entries, and for any other object the value of one of its
    entries. *)
Theorem first_message_is_a_field_message (fields : list (string * value)) :
  (fields = [] -> getFirstErrorMessage fields = VStr "Validation failed")
  /\ (fields <> [] ->
      exists k, In k (map fst fields)
                /\ lookup k fields = Some (getFirstErrorMessage fields)).
Proof.
  split; [intros ->; reflexivity|].
  intros NE. unfold getFirstErrorMessage, Object_values.
  pose proof (OrdinaryOwnPropertyKeys_length fields) as L.
  pose proof (OrdinaryOwnPropertyKeys_In fields) as I.
  destruct (OrdinaryOwnPropertyKeys fields) as [|k ks].
  - destruct fields; [contradiction | discriminate].
  - cbn [map]. assert (Hk : In k (map fst fields)) by (apply I; now left).
    exists k. split; [exact Hk|].
    destruct (lookup_In k fields Hk) as (v & ->). reflexivity.
Qed.

Lemma first_message_is_a_field_message_witness :
  exists k, In k (map fst [ ("title", VStr "Too long") ])
            /\ lookup k [ ("title", VStr "Too long") ]
               = Some (getFirstErrorMessage [ ("title", VStr "Too long") ]).
Proof.
  destruct (first_message_is_a_field_message [ ("title", VStr "Too long") ])
    as (_ & T).
  apply T. discriminate.
Defined.

Lemma leaf_segment_trailing_dot p : leaf_segment (p ++ ".") = EmptyString.
Proof.
  induction p as [|a r IH]; [reflexivity|].
  cbn [String.append leaf_segment].
  assert (I : includes (r ++ ".") "." = true).
  { clear. induction r as [|b r IH]; [reflexivity|]. cbn.
    rewrite IH. apply orb_true_r. }
  now rewrite I.
Qed.

(** X19.  The field name computed from a path is the part of the path
    after its last dot: it has no dot, the path is the name itself or ends
    with a dot followed by the name, and the name of a name is the name;
    a path that ends with a dot gives the empty name. *)
Theorem field_name_is_last_segment (p : string) :
  exists n,
    fieldName_of (VStr p) = Normal n
    /\ includes n "." = false
    /\ (p = n \/ exists prefix, p = (prefix ++ "." ++ n)%string)
    /\ fieldName_of (VStr n) = Normal n
    /\ fieldName_of (VStr (p ++ ".")) = Normal EmptyString.
Proof.
  exists (leaf_segment p). rewrite !fieldName_of_path.
  split; [reflexivity|]. split; [apply leaf_segment_no_dot|].
  split; [apply leaf_segment_suffix|]. split.
  - f_equal. destruct (leaf_segment_suffix (leaf_segment p)) as [E|(q & E)].
    + now rewrite <- E.
    + pose proof (leaf_segment_no_dot p) as D. rewrite E in D.
      exfalso. clear E. induction q as [|a q IH]; cbn in D; [discriminate|].
      apply orb_false_iff in D. now apply IH.
  - now rewrite leaf_segment_trailing_dot.
Qed.

(** ** Leaves that are array indices *)

Lemma insert_index_head k l :
  exists h t, insert_index k l = h :: t
              /\ (h = k \/ In h l)
              /\ index_of h <= index_of k
              /\ (forall x, hd_error l = Some x -> index_of h <= index_of x).
Proof.
  destruct l as [|a l]; cbn.
  - exists k, []. repeat split; auto; try lia. discriminate.
  - destruct (index_of k <=? index_of a) eqn:E.
    + apply Z.leb_le in E. exists k, (a :: l). repeat split; auto; try lia.
      intros x H. injection H as <-. exact E.
    + apply Z.leb_gt in E. exists a, (insert_index k l).
      repeat split; auto; try lia.
      intros x H. injection H as <-. lia.
Qed.

Lemma sort_indices_head l :
  l <> [] ->
  exists h t, sort_indices l = h :: t /\ In h l
              /\ forall x, In x l -> index_of h <= index_of x.
Proof.
  unfold sort_indices. induction l as [|k l IH]; [contradiction|].
  intros _. cbn [fold_right].
  destruct (insert_index_head k (fold_right insert_index [] l))
    as (h & t & E & Hh & Hk & Hl).
  exists h, t. split; [exact E|].
  destruct l as [|k' l'].
  - cbn in *. destruct Hh as [->|[]]. split; [now left|].
    intros x [<-|[]]. lia.
  - destruct (IH ltac:(discriminate)) as (h' & t' & E' & Hh' & Hmin).
    rewrite E' in *. specialize (Hl h' eq_refl). split.
    + destruct Hh as [->|Hh]; [now left|]. right.
      apply (sort_indices_In h (k' :: l')). unfold sort_indices.
      rewrite E'. exact Hh.
    + intros x [<-|Hx]; [exact Hk|]. specialize (Hmin x Hx). lia.
Qed.

(** X20.  The summary message follows the order of the keys of the fields
    object, in which array indices come first: when the leaves of the
    offending fields are pairwise distinct and some of them are array
    indices, the message of the response is that of the offending field
    whose leaf is the smallest index, wherever it stands in the
    iteration. *)
Theorem index_leaf_gives_the_message
        (env : option string) (e : value) (errs : list (string * FieldError))
        (fe : FieldError) :
  nullish e = false ->
  prop e "name" = VStr "ValidationError" ->
  prop e "errors" = VObj (errors_object errs) ->
  NoDup (map (fun x => leaf_segment (path x)) (offending errs)) ->
  ~ In "__proto__" (map (fun x => leaf_segment (path x)) (offending errs)) ->
  In fe (offending errs) ->
  is_array_index (leaf_segment (path fe)) = true ->
  (forall fe', In fe' (offending errs) ->
               is_array_index (leaf_segment (path fe')) = true ->
               fe' <> fe ->
               index_of (leaf_segment (path fe))
               < index_of (leaf_segment (path fe'))) ->
  exists r, errorHandler env e = Normal r
            /\ message_of r = VStr (message fe).
Proof.
  intros N Hn He D P I A M.
  set (l := offending errs) in *.
  assert (F : assign_all (leaf_entries l) [] = leaf_entries l)
    by (apply assign_all_fresh; rewrite ?leaf_entries_keys; auto).
  assert (V : is_validation e = true)
    by (unfold is_validation; now rewrite Hn, He).
  rewrite (errorHandler_chain env e N), V,
    (extractMongooseErrors_validation e errs N He).
  fold l. rewrite F. cbn [bind]. eexists. split; [reflexivity|].
  unfold message_of, error_of, validation_response, error_body.
  cbn [json prop lookup String.eqb Ascii.eqb Bool.eqb].
  unfold getFirstErrorMessage, Object_values, OrdinaryOwnPropertyKeys.
  rewrite leaf_entries_keys.
  set (ks := map (fun x => leaf_segment (path x)) l) in *.
  assert (Ik : In (leaf_segment (path fe)) (filter is_array_index ks))
    by (apply filter_In; split;
        [exact (in_map (fun x => leaf_segment (path x)) l fe I) | exact A]).
  destruct (sort_indices_head (filter is_array_index ks))
    as (h & t & E & Hh & Hmin).
  { intros Z. rewrite Z in Ik. destruct Ik. }
  rewrite E. cbn [app map].
  apply filter_In in Hh. destruct Hh as (Hh & Ah).
  unfold ks in Hh. apply in_map_iff in Hh. destruct Hh as (fe' & <- & I').
  specialize (Hmin _ Ik).
  destruct (string_dec (leaf_segment (path fe')) (leaf_segment (path fe)))
    as [El|Nl].
  - rewrite El. now rewrite (lookup_leaf_entries fe l I D).
  - exfalso. assert (Hne : fe' <> fe) by (intros ->; now apply Nl).
    specialize (M fe' I' Ah Hne). lia.
Qed.

(** The entry of [goals.0] is visited after that of [content], and gives
    the message. *)
Lemma index_leaf_gives_the_message_witness :
  offending goal_cast_errors = [ content_fe; goal_fe ]
  /\ exists r, errorHandler (Some "production") goal_cast_failure = Normal r
               /\ message_of r = VStr "Cast to Embedded failed".
Proof.
  split; [reflexivity|].
  apply (index_leaf_gives_the_message (Some "production") goal_cast_failure
           goal_cast_errors goal_fe); try reflexivity.
  - vm_compute. repeat constructor; cbn; intuition discriminate.
  - vm_compute. intuition discriminate.
  - right. left. reflexivity.
  - intros fe' H. vm_compute in H. destruct H as [<-|[<-|[]]].
    + discriminate.
    + intros _ Hne. now destruct Hne.
Defined.
